(** * Uber ride cancellation predictor: the prediction callback

    A shallow embedding of [Project Deploy/Uber_Ride_Cancellation_App.py]:
    the start-up code that loads the model pipeline (lines 9-16), the
    input options and the data of the layout (lines 19-138), the
    dependencies of the callback (lines 141-164) and the Dash callback
    [predict_cancellation] (lines 165-210), together with the properties
    of the callback that the specification states and further properties
    read off the code.

    Python values are embedded as follows.
    - Widget values arrive from the browser as JSON: [None], an integer, a
      float or a string ([value]).
    - The probability is a binary64 float ([PrimFloat.float]); [prob * 100]
      is the IEEE multiplication and [prob >= threshold] the IEEE
      comparison.
    - An exception is an instance of [Exception], carrying its class name
      and the text [str(e)] gives ([exn]).  The classes outside
      [Exception] ([KeyboardInterrupt], [SystemExit], [GeneratorExit]) are
      requests to the interpreter, not faults of a computation, and are
      not modelled.
    - The model answers with a two-dimensional numpy array of float64, as
      scikit-learn's [predict_proba] does, or raises.
    - The callback runs in a small monad [M] that threads the list of
      data frames handed to [predict_proba] and can raise; [try_except]
      is the [try: ... except Exception as e: ...] statement.
    - The built-ins [round] and [str] on floats are parameters of the
      callback: which algorithm runs depends on the run-time class of the
      number the model returns.  Module [Builtins] gives the two
      algorithms that occur ([float.__round__] and [numpy.float64.__round__])
      so that the callback can be run on examples. *)

From Stdlib Require Import ZArith List String Ascii Bool Lia.
From Stdlib Require Import Floats DecimalString.
Import ListNotations.

Local Open Scope string_scope.
Local Open Scope Z_scope.

(* Decimal float literals such as 0.4567 denote the nearest binary64 value,
   as they do in Python. *)
#[local] Set Warnings "-inexact-float".

(* ------------------------------------------------------------------ *)
(** ** Python values and exceptions *)

(** A value of a Dash component property, as the callback receives it. *)
Inductive value : Type :=
| VNone
| VInt (n : Z)
| VFloat (x : float)
| VStr (s : string).

(** A number handed to the progress bar: the literal [0] or a float. *)
Inductive number : Type :=
| Int (n : Z)
| Float (x : float).

(** An instance of [Exception]: its class and what [str(e)] returns. *)
Record exn : Type := Exn { exn_class : string; exn_str : string }.

Inductive result (A : Type) : Type :=
| Ok (a : A)
| Raise (e : exn).
Arguments Ok {A} a.
Arguments Raise {A} e.

(** One row of a data frame: the columns in insertion order. *)
Definition record : Type := list (string * value).

(** [pandas.DataFrame]: a list of rows. *)
Definition dataframe : Type := list record.

(** [pd.DataFrame([row, ...])] built from a list of dicts. *)
Definition DataFrame (rows : list record) : dataframe := rows.

(** The array [predict_proba] returns: one row of class probabilities per
    submitted record. *)
Definition ndarray : Type := list (list float).

(** A loaded pipeline, seen through its method [predict_proba]. *)
Definition estimator : Type := dataframe -> result ndarray.

(** Column lookup in a row. *)
Fixpoint row_get (r : record) (k : string) : option value :=
  match r with
  | [] => None
  | (k', v) :: r' => if String.eqb k' k then Some v else row_get r' k
  end.

(* ------------------------------------------------------------------ *)
(** ** The monad of the callback *)

(** The data frames handed to [predict_proba] so far, oldest first. *)
Definition trace : Type := list dataframe.

Definition M (A : Type) : Type := trace -> result A * trace.

Definition ret {A} (a : A) : M A := fun t => (Ok a, t).

Definition raise {A} (e : exn) : M A := fun t => (Raise e, t).

Definition bind {A B} (m : M A) (k : A -> M B) : M B :=
  fun t =>
    match m t with
    | (Ok a, t') => k a t'
    | (Raise e, t') => (Raise e, t')
    end.

(** [try: body  except Exception as e: handler e].  What the body did
    before it raised stays done. *)
Definition try_except {A} (body : M A) (handler : exn -> M A) : M A :=
  fun t =>
    match body t with
    | (Ok a, t') => (Ok a, t')
    | (Raise e, t') => handler e t'
    end.

Declare Scope py_scope.
Delimit Scope py_scope with py.
Notation "x <- m ;; k" := (bind m (fun x => k))
  (at level 100, m at next level, right associativity) : py_scope.
Local Open Scope py_scope.

(** [pipeline.predict_proba(df)]: the call is recorded, then the
    estimator answers or raises. *)
Definition predict_proba (pipeline : estimator) (df : dataframe) : M ndarray :=
  fun t => (pipeline df, (t ++ [df])%list).

(** Decimal text of a natural number, as in numpy's messages. *)
Definition nat_str (n : nat) : string := NilEmpty.string_of_uint (Nat.to_uint n).

(** [a[i]] on an array axis for a non-negative literal index [i]:
    numpy raises [IndexError] when [i] is not below the size. *)
Definition getitem {A} (a : list A) (i : nat) : M A :=
  match nth_error a i with
  | Some x => ret x
  | None =>
      raise (Exn "IndexError"
               ("index " ++ nat_str i ++ " is out of bounds for axis 0 with size "
                  ++ nat_str (List.length a)))
  end.

(** Truth value of [n_clicks]: [None] and [0] are false. *)
Definition truthy (n_clicks : option Z) : bool :=
  match n_clicks with
  | None => false
  | Some n => negb (n =? 0)
  end.

(** The five values the callback returns, in the order of its [Output]s:
    [prediction-text.children], [prediction-text.className],
    [prob-bar.value], [prob-bar.color], [prob-text.children]. *)
Record outputs : Type := Outputs {
  prediction_text : string;
  prediction_class : string;
  prob_bar_value : number;
  prob_bar_color : string;
  prob_text : string
}.

(* ------------------------------------------------------------------ *)
(** ** Start-up: loading the pipeline (lines 9-16) *)

Definition MODEL_FILE : string := "cancellation_model_pipeline.joblib".

(** [path_exists] is the answer of [os.path.exists(MODEL_FILE)] and
    [joblib_load] the outcome of [joblib.load(MODEL_FILE)]: an exception,
    or the object the file unpickles to.  That object is Python's [None]
    or an object seen through its method [predict_proba]; an object
    without the method is an estimator whose call raises
    [AttributeError].  The result is the module-level [pipeline]: the
    loaded object as it is, or [None] when the file is missing.  An
    exception of [joblib.load] is not handled: the module does not finish
    loading. *)
Definition load_pipeline (path_exists : bool)
    (joblib_load : result (option estimator))
  : result (option estimator) :=
  if path_exists then joblib_load else Ok None.

(* ------------------------------------------------------------------ *)
(** ** The callback (lines 165-210) *)

(** The one-row data frame of lines 174-191. *)
Definition input_data
    (v_type weather pickup drop patience rating
     arrival dist cost temp hour hum prec day month dom : value) : dataframe :=
  DataFrame [[
    ("vehicle_arrival_time", arrival);
    ("distance", dist);
    ("ride_cost", cost);
    ("temperature", temp);
    ("humidity", hum);
    ("precipitation_mm", prec);
    ("vehicle_type", v_type);
    ("customer_patience", patience);
    ("pickup_zone", pickup);
    ("drop_zone", drop);
    ("historical_customer_rating_binned", rating);
    ("hour", hour);
    ("day", day);
    ("month", month);
    ("day_of_month", dom);
    ("weather_condition", weather)
  ]].

(** Line 194: [pipeline.predict_proba(input_data)[0][1]]. *)
Definition cancel_probability (pipeline : estimator) (df : dataframe) : M float :=
  proba <- predict_proba pipeline df ;;
  row0 <- getitem proba 0 ;;
  getitem row0 1.

Section Callback.

(** [round(x, ndigits)] on a float. *)
Variable py_round : float -> Z -> float.
(** The text an f-string gives for a float. *)
Variable float_str : float -> string.

Definition predict_cancellation
    (pipeline : option estimator) (n_clicks : option Z)
    (v_type weather pickup drop patience rating
     arrival dist cost temp hour hum prec day month dom : value)
  : M outputs :=
  if negb (truthy n_clicks) then
    ret (Outputs "Ready" "text-center text-muted" (Int 0) "info"
                 "Click Predict to start")
  else
    match pipeline with
    | None =>
        ret (Outputs "Error" "text-danger" (Int 0) "danger"
                     "Model file not found.")
    | Some pipe =>
        let input_data :=
          input_data v_type weather pickup drop patience rating
                     arrival dist cost temp hour hum prec day month dom in
        try_except
          (prob <- cancel_probability pipe input_data ;;
           let prob_pct := py_round (prob * 100)%float 2 in
           let threshold := 0.5%float in
           let '(pred_text, text_class, bar_color) :=
             if (threshold <=? prob)%float then
               ("Cancelled", "text-center text-danger font-weight-bold", "danger")
             else
               ("Not Cancelled", "text-center text-success font-weight-bold", "success")
           in
           ret (Outputs pred_text text_class (Float prob_pct) bar_color
                        (float_str prob_pct ++ "% Risk")))
          (fun e =>
             ret (Outputs "Error" "text-danger" (Int 0) "danger"
                          ("Prediction failed: " ++ exn_str e)))
    end.

End Callback.

(* ------------------------------------------------------------------ *)
(** ** The component properties bound to the callback (lines 141-164) *)

(** The [State] arguments of [app.callback], named by component id, in
    the order of the decorator. *)
Module State.
Record t : Type := Make {
  vehicle_type : value;
  weather_condition : value;
  pickup_zone : value;
  drop_zone : value;
  customer_patience : value;
  historical_rating : value;
  arrival_time : value;
  distance : value;
  cost : value;
  temp : value;
  hour : value;
  humidity : value;
  precip : value;
  day : value;
  month : value;
  day_of_month : value
}.

Definition values (st : t) : list value :=
  [ vehicle_type st; weather_condition st; pickup_zone st; drop_zone st;
    customer_patience st; historical_rating st; arrival_time st; distance st;
    cost st; temp st; hour st; humidity st; precip st; day st; month st;
    day_of_month st ].

(** The [value=] each component has in the layout (lines 52-114). *)
Definition initial : t :=
  Make (VStr "Auto") (VStr "Clear") (VStr "Gurgaon") (VStr "South Delhi")
       (VStr "patient") (VStr "No Prior Rating")
       (VInt 5) (VInt 10) (VInt 300) (VInt 30)
       (VInt 18) (VInt 50) (VInt 0) (VStr "Monday") (VInt 6) (VInt 15).
End State.

(** Dash calls the function with the [Input] and then the [State]s,
    positionally. *)
Definition callback (py_round : float -> Z -> float) (float_str : float -> string)
    (pipeline : option estimator) (n_clicks : option Z) (st : State.t) : M outputs :=
  predict_cancellation py_round float_str pipeline n_clicks
    (State.vehicle_type st) (State.weather_condition st) (State.pickup_zone st)
    (State.drop_zone st) (State.customer_patience st) (State.historical_rating st)
    (State.arrival_time st) (State.distance st) (State.cost st) (State.temp st)
    (State.hour st) (State.humidity st) (State.precip st) (State.day st)
    (State.month st) (State.day_of_month st).

(** The data frame a trigger in state [st] submits. *)
Definition submitted (st : State.t) : dataframe :=
  input_data
    (State.vehicle_type st) (State.weather_condition st) (State.pickup_zone st)
    (State.drop_zone st) (State.customer_patience st) (State.historical_rating st)
    (State.arrival_time st) (State.distance st) (State.cost st) (State.temp st)
    (State.hour st) (State.humidity st) (State.precip st) (State.day st)
    (State.month st) (State.day_of_month st).

(** The field names of the record the model was trained on. *)
Definition schema : list string :=
  [ "vehicle_arrival_time"; "distance"; "ride_cost"; "temperature"; "humidity";
    "precipitation_mm"; "vehicle_type"; "customer_patience"; "pickup_zone";
    "drop_zone"; "historical_customer_rating_binned"; "hour"; "day"; "month";
    "day_of_month"; "weather_condition" ].

Definition non_null (v : value) : Prop := v <> VNone.

(** Two module-level pipelines that cannot be told apart on [df]. *)
Definition same_response (p1 p2 : option estimator) (df : dataframe) : Prop :=
  match p1, p2 with
  | None, None => True
  | Some f, Some g => f df = g df
  | _, _ => False
  end.

(* ------------------------------------------------------------------ *)
(** ** The built-ins on floats

    Executable definitions of what [round] and [str] compute on a
    binary64 float, by exact integer arithmetic on the value
    [m * 2 ^ e] of the float.  [float_round] is CPython's
    [float.__round__] (the decimal nearest to the exact value, ties to
    even, then the float nearest to that decimal); [numpy_round] is
    [numpy.float64.__round__] (scale, round to an integer, unscale, each
    step in floating point); [float_repr] is the shortest decimal text
    that reads back as the same float. *)

Module Builtins.

(** The integer nearest to [n / d], ties to even ([0 <= n], [0 < d]). *)
Definition round_half_even (n d : Z) : Z :=
  let q := n / d in
  match 2 * (n mod d) ?= d with
  | Lt => q
  | Gt => q + 1
  | Eq => if Z.even q then q else q + 1
  end.

(** The float nearest to [n / d] ([0 <= n], [0 < d]): the quotient is
    cut after more than 64 bits, with a sticky last bit, and rounded
    once. *)
Definition float_of_ratio (n d : Z) : float :=
  let s := 64 + Z.log2_up d in
  let q := (n * 2 ^ s) / d in
  let sticky := if (n * 2 ^ s) mod d =? 0 then 0 else 1 in
  SF2Prim (binary_normalize prec emax (2 * q + sticky) (- s - 1) false).

Definition float_round (x : float) (ndigits : Z) : float :=
  match Prim2SF x with
  | S754_finite s m e =>
      let n := Zpos m * 2 ^ Z.max e 0 in
      let d := 2 ^ Z.max (- e) 0 in
      let r :=
        if 0 <=? ndigits then
          let p := 10 ^ ndigits in
          float_of_ratio (round_half_even (n * p) d) p
        else
          let p := 10 ^ (- ndigits) in
          float_of_ratio (round_half_even n (d * p) * p) 1
      in
      if s then (- r)%float else r
  | _ => x
  end.

(** [numpy.rint]: the nearest integer, ties to even, as a float. *)
Definition rint (x : float) : float :=
  match Prim2SF x with
  | S754_finite s m e =>
      let r :=
        float_of_ratio
          (round_half_even (Zpos m * 2 ^ Z.max e 0) (2 ^ Z.max (- e) 0)) 1 in
      if s then (- r)%float else r
  | _ => x
  end.

Definition power_of_ten (n : Z) : float := float_of_ratio (10 ^ n) 1.

Definition numpy_round (x : float) (decimals : Z) : float :=
  if 0 <=? decimals then
    (rint (x * power_of_ten decimals) / power_of_ten decimals)%float
  else
    (rint (x / power_of_ten (- decimals)) * power_of_ten (- decimals))%float.

Definition Z_str (n : Z) : string :=
  NilEmpty.string_of_uint (N.to_uint (Z.to_N n)).

Fixpoint zeros (n : nat) : string :=
  match n with
  | O => ""
  | S n' => String "0" (zeros n')
  end.

(** Drops the zeros at the end of a digit string. *)
Fixpoint strip_zeros (s : string) : string :=
  match s with
  | String c s' =>
      match strip_zeros s' with
      | "" => if Ascii.eqb c "0" then "" else String c ""
      | t => String c t
      end
  | "" => ""
  end.

(** The same, keeping the first digit. *)
Definition keep_digit (s : string) : string :=
  match s with
  | String c s' => String c (strip_zeros s')
  | "" => ""
  end.

(** [n / d < 10 ^ k] for positive [n] and [d]. *)
Definition below_pow10 (n d k : Z) : bool :=
  if 0 <=? k then n <? d * 10 ^ k else n * 10 ^ (- k) <? d.

Fixpoint first_pow10 (fuel : nat) (n d k : Z) : Z :=
  match fuel with
  | O => k
  | S fuel' => if below_pow10 n d k then k else first_pow10 fuel' n d (k + 1)
  end.

(** The position of the decimal point of [n / d]:
    [10 ^ (decpt - 1) <= n / d < 10 ^ decpt].  The search starts below
    it, from an estimate by binary logarithms. *)
Definition decpt (n d : Z) : Z :=
  first_pow10 8 n d ((Z.log2 n - Z.log2 d - 1) * 30103 / 100000 - 1).

(** The float nearest to [k * 10 ^ e]. *)
Definition float_of_decimal (k e : Z) : float :=
  if 0 <=? e then float_of_ratio (k * 10 ^ e) 1
  else float_of_ratio k (10 ^ (- e)).

(** The decimal [k * 10 ^ e] with the fewest digits, [j] at least, that
    reads back as [x = n / d]; of two of that length, the one closer to
    [x]. *)
Fixpoint shortest (fuel : nat) (x : float) (n d p j : Z) : Z * Z :=
  let e := p - j in
  let lo := if 0 <=? e then n / (d * 10 ^ e) else (n * 10 ^ (- e)) / d in
  let hi := lo + 1 in
  let lo_ok := (float_of_decimal lo e =? x)%float in
  let hi_ok := (float_of_decimal hi e =? x)%float in
  let hi_nearer :=
    let l := if 0 <=? e then (2 * lo + 1) * 10 ^ e * d else (2 * lo + 1) * d in
    let r := if 0 <=? e then 2 * n else 2 * n * 10 ^ (- e) in
    match l ?= r with
    | Lt => true
    | Eq => Z.odd lo
    | Gt => false
    end in
  match fuel with
  | O => if hi_nearer then (hi, e) else (lo, e)
  | S fuel' =>
      if lo_ok && hi_ok then (if hi_nearer then (hi, e) else (lo, e))
      else if lo_ok then (lo, e)
      else if hi_ok then (hi, e)
      else shortest fuel' x n d p (j + 1)
  end.

(** Exponent of the scientific form: a sign and two digits at least. *)
Definition exp_str (e : Z) : string :=
  (if e <? 0 then "e-" else "e+")
    ++ (if Z.abs e <? 10 then "0" else "") ++ Z_str (Z.abs e).

(** [repr] of the positive finite float [x = m * 2 ^ e]: fixed notation
    when the decimal point falls within [-4 < dp <= 16], scientific
    otherwise. *)
Definition repr_pos (x : float) (m : positive) (e : Z) : string :=
  let n := Zpos m * 2 ^ Z.max e 0 in
  let d := 2 ^ Z.max (- e) 0 in
  let '(k, e10) := shortest 16 x n d (decpt n d) 1 in
  let all := Z_str k in
  let ds := keep_digit all in
  let dp := Z.of_nat (String.length all) + e10 in
  let nd := Z.of_nat (String.length ds) in
  if (dp <=? -4) || (16 <? dp) then
    let frac := String.substring 1 (String.length ds - 1) ds in
    String.substring 0 1 ds ++ (if nd =? 1 then "" else "." ++ frac)
      ++ exp_str (dp - 1)
  else if dp <=? 0 then
    "0." ++ zeros (Z.to_nat (- dp)) ++ ds
  else if nd <=? dp then
    ds ++ zeros (Z.to_nat (dp - nd)) ++ ".0"
  else
    String.substring 0 (Z.to_nat dp) ds ++ "."
      ++ String.substring (Z.to_nat dp) (String.length ds - Z.to_nat dp) ds.

(** [str(x)], [repr(x)] and [format(x, '')] of a float. *)
Definition float_repr (x : float) : string :=
  match Prim2SF x with
  | S754_nan => "nan"
  | S754_infinity s => if s then "-inf" else "inf"
  | S754_zero s => if s then "-0.0" else "0.0"
  | S754_finite s m e => (if s then "-" else "") ++ repr_pos (abs x) m e
  end.

End Builtins.

(** Following the spec's words ("probability x 100, rounded to 2 decimal
    places"): [d] is [scale * x] rounded to [ndigits] decimal places.  The
    product is taken exactly, on the value [m * 2 ^ e] of the float [x];
    [k / 10 ^ ndigits] is a decimal of [ndigits] places nearest to it
    (either one on a tie), and [d] the float nearest to that decimal.
    Zeros, infinities and NaN round to themselves. *)
Definition rounded_to_places (scale ndigits : Z) (x d : float) : Prop :=
  match Prim2SF x with
  | S754_finite s m e =>
      let n := Zpos m * 2 ^ Z.max e 0 in
      let den := 2 ^ Z.max (- e) 0 in
      exists k,
        2 * Z.abs (n * scale * 10 ^ ndigits - den * k) <= den
        /\ d = if s then (- Builtins.float_of_ratio k (10 ^ ndigits))%float
               else Builtins.float_of_ratio k (10 ^ ndigits)
  | _ => d = x
  end.

(** An estimator that answers every data frame with the class
    probabilities [row]. *)
Definition constant_model (row : list float) : estimator :=
  fun _ => Ok [row].

(** An estimator whose [predict_proba] raises [e]. *)
Definition failing_model (e : exn) : estimator :=
  fun _ => Raise e.

(* ------------------------------------------------------------------ *)
(** ** Inputs used in the examples *)

(** The layout's values with the vehicle type cleared: a [dcc.Dropdown]
    can be emptied by its user, and Dash then reports [None]. *)
Definition cleared_vehicle_type : State.t :=
  State.Make VNone (VStr "Clear") (VStr "Gurgaon") (VStr "South Delhi")
             (VStr "patient") (VStr "No Prior Rating")
             (VInt 5) (VInt 10) (VInt 300) (VInt 30)
             (VInt 18) (VInt 50) (VInt 0) (VStr "Monday") (VInt 6) (VInt 15).

(** Month 13, day 32, humidity 250 and a negative precipitation. *)
Definition out_of_range : State.t :=
  State.Make (VStr "Auto") (VStr "Clear") (VStr "Gurgaon") (VStr "South Delhi")
             (VStr "patient") (VStr "No Prior Rating")
             (VInt 5) (VInt 10) (VInt 300) (VInt 30)
             (VInt 18) (VInt 250) (VFloat (-3.5)) (VStr "Monday") (VInt 13) (VInt 32).

(** An estimator that knows one-row data frames only. *)
Definition single_row_model : estimator :=
  fun df =>
    match df with
    | [_] => Ok [[0.27; 0.73]%float]
    | _ => Raise (Exn "ValueError" "expected a single row")
    end.

Definition ValueError_bad_record : exn :=
  Exn "ValueError" "could not convert string to float: 'Auto'".

(* ------------------------------------------------------------------ *)
(** ** Start-up with its messages (lines 11-16) *)

(** [load_pipeline] together with the lines printed.  [joblib.load]
    comes before the [print] of line 13: when it raises, nothing has been
    printed. *)
Definition startup (path_exists : bool)
    (joblib_load : result (option estimator))
  : result (option estimator) * list string :=
  if path_exists then
    match joblib_load with
    | Ok loaded => (Ok loaded, ["Model loaded from " ++ MODEL_FILE])
    | Raise e => (Raise e, [])
    end
  else
    (Ok None,
     ["ERROR: " ++ MODEL_FILE
        ++ " not found. Please ensure the model file is in the same directory."]).

(* ------------------------------------------------------------------ *)
(** ** The input options (lines 19-24) *)

Definition vehicle_types : list string :=
  ["Bike"; "Go Mini"; "eBike"; "Auto"; "Premier Sedan"; "Uber XL"; "Go Sedan"].

Definition zones : list string :=
  ["Gurgaon"; "East Delhi"; "South Delhi"; "Central Delhi"; "West Delhi";
   "North Delhi"; "Outer NCR"; "Noida"; "Other (Delhi)"; "Ghaziabad";
   "Airport Area"].

Definition patience_levels : list string :=
  ["new_customer"; "no_cancel_history"; "extremely patient"; "very patient";
   "very_impatient"; "patient"].

Definition weather_conditions : list string :=
  ["Clear"; "Mainly Clear/Cloudy"; "Drizzle"; "Rain"].

Definition rating_history : list string :=
  ["Historically Good"; "Historically Poor/Avg"; "No Prior Rating"].

(* ------------------------------------------------------------------ *)
(** ** The layout and the decorator (lines 33-164)

    The components of [app.layout] that carry an [id], in document
    order, with the data the layout gives them: options, bounds, steps,
    marks and initial values.  Containers, labels and styling carry no
    [id] and no data, and are left out. *)

Module Layout.

Inductive component : Type :=
| Dropdown (id : string) (options : list string) (value : string)
| Slider (id : string) (min max step value : Z) (marks : list (Z * string))
| NumberInput (id : string) (value : Z) (min max : option Z)
| H2 (id : string)
| Progress (id : string) (value : Z)
| P (id : string)
| Button (id : string) (children : string).

Definition components : list component :=
  [ Dropdown "vehicle_type" vehicle_types "Auto";
    Dropdown "weather_condition" weather_conditions "Clear";
    Dropdown "pickup_zone" zones "Gurgaon";
    Dropdown "drop_zone" zones "South Delhi";
    Dropdown "customer_patience" patience_levels "patient";
    Dropdown "historical_rating" rating_history "No Prior Rating";
    Slider "arrival_time" 0 60 1 5
           [(0, "0"); (15, "15"); (30, "30"); (45, "45"); (60, "60")];
    Slider "distance" 0 50 1 10
           [(0, "0"); (10, "10"); (25, "25"); (50, "50")];
    Slider "cost" 0 2000 50 300
           [(0, "0"); (500, "500"); (1000, "1k"); (2000, "2k")];
    Slider "temp" 0 50 1 30
           [(0, "0"); (25, "25"); (40, "40"); (50, "50")];
    NumberInput "hour" 18 (Some 0) (Some 23);
    NumberInput "humidity" 50 None None;
    NumberInput "precip" 0 None None;
    Dropdown "day"
             ["Monday"; "Tuesday"; "Wednesday"; "Thursday"; "Friday";
              "Saturday"; "Sunday"]
             "Monday";
    NumberInput "month" 6 None None;
    NumberInput "day_of_month" 15 None None;
    H2 "prediction-text";
    Progress "prob-bar" 0;
    P "prob-text";
    Button "btn-predict" "Predict Now" ].

Definition id_of (c : component) : string :=
  match c with
  | Dropdown id _ _ | Slider id _ _ _ _ _ | NumberInput id _ _ _
  | H2 id | Progress id _ | P id | Button id _ => id
  end.

(** The [value=] a component is given in the layout. *)
Definition value_of (c : component) : option value :=
  match c with
  | Dropdown _ _ v => Some (VStr v)
  | Slider _ _ _ _ v _ => Some (VInt v)
  | NumberInput _ v _ _ => Some (VInt v)
  | Progress _ v => Some (VInt v)
  | H2 _ | P _ | Button _ _ => None
  end.

Definition find (id : string) : option component :=
  List.find (fun c => String.eqb (id_of c) id) components.

(** The positions a slider can take: [min], [min + step], ... up to
    [max]. *)
Definition on_grid (min max step v : Z) : Prop :=
  min <= v <= max /\ (v - min) mod step = 0.

(** What the layout promises about one component. *)
Definition sound (c : component) : Prop :=
  match c with
  | Dropdown _ options v => In v options /\ NoDup options
  | Slider _ min max step v marks =>
      0 < step /\ on_grid min max step v /\ on_grid min max step max
      /\ Forall (fun mark => on_grid min max step (fst mark)) marks
  | NumberInput _ v lo hi =>
      match lo with Some l => l <= v | None => True end
      /\ match hi with Some h => v <= h | None => True end
  | H2 _ | Progress _ _ | P _ | Button _ _ => True
  end.

(** The dependencies of [app.callback] (lines 141-164): component id
    and property. *)
Definition callback_outputs : list (string * string) :=
  [ ("prediction-text", "children"); ("prediction-text", "className");
    ("prob-bar", "value"); ("prob-bar", "color"); ("prob-text", "children") ].

Definition callback_inputs : list (string * string) :=
  [ ("btn-predict", "n_clicks") ].

Definition callback_states : list (string * string) :=
  [ ("vehicle_type", "value"); ("weather_condition", "value");
    ("pickup_zone", "value"); ("drop_zone", "value");
    ("customer_patience", "value"); ("historical_rating", "value");
    ("arrival_time", "value"); ("distance", "value"); ("cost", "value");
    ("temp", "value"); ("hour", "value"); ("humidity", "value");
    ("precip", "value"); ("day", "value"); ("month", "value");
    ("day_of_month", "value") ].

(** The value of each [State] before the user touches the form. *)
Definition initial_values : list (option value) :=
  map (fun dep => match find (fst dep) with
                  | Some c => value_of c
                  | None => None
                  end) callback_states.

End Layout.

(* ------------------------------------------------------------------ *)
(** ** A session: the triggers of one process, one after the other *)

(** Dash serves one invocation at a time; each event is the click count
    and the component values of an invocation. *)
Fixpoint session (py_round : float -> Z -> float) (float_str : float -> string)
    (pipeline : option estimator) (events : list (option Z * State.t))
  : M (list outputs) :=
  match events with
  | [] => ret []
  | ev :: events' =>
      out <- callback py_round float_str pipeline (fst ev) (snd ev) ;;
      outs <- session py_round float_str pipeline events' ;;
      ret (out :: outs)
  end.

(** The data frames one invocation hands to the model. *)
Definition calls_of (pipeline : option estimator) (n_clicks : option Z)
    (st : State.t) : list dataframe :=
  match pipeline with
  | Some _ => if truthy n_clicks then [submitted st] else []
  | None => []
  end.

(* ------------------------------------------------------------------ *)
(** ** Running the callback: one lemma per path *)

Section Paths.

Variable py_round : float -> Z -> float.
Variable float_str : float -> string.

(** Lines 168-169. *)
Lemma run_idle pipeline n_clicks st t :
  truthy n_clicks = false ->
  callback py_round float_str pipeline n_clicks st t =
    (Ok (Outputs "Ready" "text-center text-muted" (Int 0) "info"
                 "Click Predict to start"), t).
Proof.
  intros Hfalsy. unfold callback, predict_cancellation.
  rewrite Hfalsy. reflexivity.
Qed.

(** Lines 171-172. *)
Lemma run_no_model n_clicks st t :
  truthy n_clicks = true ->
  callback py_round float_str None n_clicks st t =
    (Ok (Outputs "Error" "text-danger" (Int 0) "danger"
                 "Model file not found."), t).
Proof.
  intros Hclick. unfold callback, predict_cancellation.
  rewrite Hclick. reflexivity.
Qed.

(** Line 194 hands exactly one data frame to the model, whatever the
    model answers. *)
Lemma cancel_probability_trace pipe df t :
  snd (cancel_probability pipe df t) = (t ++ [df])%list.
Proof.
  unfold cancel_probability, bind, predict_proba.
  destruct (pipe df) as [proba | e]; [| reflexivity].
  destruct proba as [| row0 rows]; [reflexivity |].
  destruct row0 as [| p0 [| p1 ps]]; reflexivity.
Qed.

Lemma cancel_probability_ok pipe df t proba row0 p :
  pipe df = Ok proba ->
  nth_error proba 0 = Some row0 ->
  nth_error row0 1 = Some p ->
  cancel_probability pipe df t = (Ok p, (t ++ [df])%list).
Proof.
  intros Hanswer Hrow Hp.
  unfold cancel_probability, bind, predict_proba, getitem.
  rewrite Hanswer, Hrow. cbv beta iota delta [ret]. rewrite Hp. reflexivity.
Qed.

Lemma cancel_probability_raises pipe df t e :
  pipe df = Raise e ->
  cancel_probability pipe df t = (Raise e, (t ++ [df])%list).
Proof.
  intros Hanswer. unfold cancel_probability, bind, predict_proba.
  rewrite Hanswer. reflexivity.
Qed.

(** Lines 195-207: the [try] body after a probability was obtained. *)
Lemma run_scored pipe n_clicks st t t' p :
  truthy n_clicks = true ->
  cancel_probability pipe (submitted st) t = (Ok p, t') ->
  callback py_round float_str (Some pipe) n_clicks st t =
    (Ok (Outputs
           (if (0.5 <=? p)%float then "Cancelled" else "Not Cancelled")
           (if (0.5 <=? p)%float
            then "text-center text-danger font-weight-bold"
            else "text-center text-success font-weight-bold")
           (Float (py_round (p * 100)%float 2))
           (if (0.5 <=? p)%float then "danger" else "success")
           (float_str (py_round (p * 100)%float 2) ++ "% Risk")), t').
Proof.
  intros Hclick Hscore. unfold callback, predict_cancellation.
  rewrite Hclick. cbn [negb]. unfold try_except, bind.
  fold (submitted st). rewrite Hscore.
  destruct (0.5 <=? p)%float; reflexivity.
Qed.

(** Lines 209-210: the handler. *)
Lemma run_fault pipe n_clicks st t t' e :
  truthy n_clicks = true ->
  cancel_probability pipe (submitted st) t = (Raise e, t') ->
  callback py_round float_str (Some pipe) n_clicks st t =
    (Ok (Outputs "Error" "text-danger" (Int 0) "danger"
                 ("Prediction failed: " ++ exn_str e)), t').
Proof.
  intros Hclick Hscore. unfold callback, predict_cancellation.
  rewrite Hclick. cbn [negb]. unfold try_except, bind.
  fold (submitted st). rewrite Hscore. reflexivity.
Qed.

(** The callback returns on every path. *)
Lemma run_returns pipeline n_clicks st t :
  exists out, fst (callback py_round float_str pipeline n_clicks st t) = Ok out.
Proof.
  destruct (truthy n_clicks) eqn:Hclick.
  - destruct pipeline as [pipe |].
    + destruct (cancel_probability pipe (submitted st) t) as [[p | e] t'] eqn:Hscore.
      * eexists. rewrite (run_scored _ _ _ _ _ _ Hclick Hscore). reflexivity.
      * eexists. rewrite (run_fault _ _ _ _ _ _ Hclick Hscore). reflexivity.
    + eexists. rewrite (run_no_model _ _ _ Hclick). reflexivity.
  - eexists. rewrite (run_idle _ _ _ _ Hclick). reflexivity.
Qed.

(** A trigger with a loaded pipeline submits one data frame. *)
Lemma run_trace pipe n_clicks st t :
  truthy n_clicks = true ->
  snd (callback py_round float_str (Some pipe) n_clicks st t) = (t ++ [submitted st])%list.
Proof.
  intros Hclick.
  pose proof (cancel_probability_trace pipe (submitted st) t) as Htrace.
  destruct (cancel_probability pipe (submitted st) t) as [[p | e] t'] eqn:Hscore.
  - rewrite (run_scored _ _ _ _ _ _ Hclick Hscore). exact Htrace.
  - rewrite (run_fault _ _ _ _ _ _ Hclick Hscore). exact Htrace.
Qed.

End Paths.

(* ------------------------------------------------------------------ *)
(** ** Facts about the embedding *)

Lemma truthy_false_iff n_clicks :
  truthy n_clicks = false <-> n_clicks = None \/ n_clicks = Some 0.
Proof.
  destruct n_clicks as [n |]; simpl.
  - rewrite negb_false_iff, Z.eqb_eq. split.
    + intros ->. now right.
    + intros [H | H]; congruence.
  - split; [now left | reflexivity].
Qed.

(** [pipeline] is [None] after start-up exactly when the file is missing
    or unpickles to [None]. *)
Lemma load_pipeline_None_iff path_exists joblib_load :
  load_pipeline path_exists joblib_load = Ok None
  <-> path_exists = false \/ joblib_load = Ok None.
Proof.
  unfold load_pipeline. destruct path_exists.
  - split; [now right | intros [H | H]; [discriminate H | exact H]].
  - split; [now left | reflexivity].
Qed.

(** [round_half_even n d] is an integer nearest to [n / d]. *)
Lemma round_half_even_nearest n d :
  0 < d -> 2 * Z.abs (n - d * Builtins.round_half_even n d) <= d.
Proof.
  intros Hd. unfold Builtins.round_half_even.
  pose proof (Z.div_mod n d ltac:(lia)) as Hdiv.
  pose proof (Z.mod_pos_bound n d Hd) as Hmod.
  destruct (Z.compare_spec (2 * (n mod d)) d) as [Heq | Hlt | Hgt].
  - destruct (Z.even (n / d)); lia.
  - lia.
  - lia.
Qed.

(** On a tie it is the even one of the two. *)
Lemma round_half_even_tie n d :
  0 < d -> 2 * (n mod d) = d -> Z.even (Builtins.round_half_even n d) = true.
Proof.
  intros Hd Htie. unfold Builtins.round_half_even.
  rewrite Htie, Z.compare_refl.
  destruct (Z.even (n / d)) eqn:Heven; [exact Heven |].
  rewrite Z.even_add, Heven. reflexivity.
Qed.

Lemma schema_NoDup : NoDup schema.
Proof.
  unfold schema.
  repeat (constructor; [cbn; intuition discriminate |]).
  constructor.
Qed.

Lemma submitted_single_row st :
  exists r, submitted st = [r]
            /\ map fst r = schema
            /\ map snd r =
               [ State.arrival_time st; State.distance st; State.cost st;
                 State.temp st; State.humidity st; State.precip st;
                 State.vehicle_type st; State.customer_patience st;
                 State.pickup_zone st; State.drop_zone st;
                 State.historical_rating st; State.hour st; State.day st;
                 State.month st; State.day_of_month st;
                 State.weather_condition st ].
Proof. eexists. repeat split. Qed.

(* ------------------------------------------------------------------ *)
(** ** Properties of the callback *)

Section Claims.

Variable py_round : float -> Z -> float.
Variable float_str : float -> string.

(** C5.  Before any trigger, that is when the callback is invoked with
    [n_clicks] still [None] or [0], it displays the text "Ready", a
    probability bar at 0 and the bar colour "info" (with the class
    "text-center text-muted" and the caption "Click Predict to start"),
    and it hands nothing to the model. *)
Theorem idle_shows_ready pipeline n_clicks st t :
  n_clicks = None \/ n_clicks = Some 0 ->
  callback py_round float_str pipeline n_clicks st t =
    (Ok (Outputs "Ready" "text-center text-muted" (Int 0) "info"
                 "Click Predict to start"), t).
Proof.
  intros Hno_click. apply run_idle.
  apply truthy_false_iff. exact Hno_click.
Qed.

(** C10.  With the pipeline missing, a callback invoked with a falsy
    click count still returns the "Ready" outputs: the click test comes
    before the pipeline test.  Hence, whatever the pipeline, the caption
    "Model file not found." is returned only to an invocation whose
    click count is truthy. *)
Theorem idle_check_precedes_model_check n_clicks st t :
  (truthy n_clicks = false ->
   callback py_round float_str None n_clicks st t =
     (Ok (Outputs "Ready" "text-center text-muted" (Int 0) "info"
                  "Click Predict to start"), t))
  /\ (forall pipeline out,
        fst (callback py_round float_str pipeline n_clicks st t) = Ok out ->
        prob_text out = "Model file not found." ->
        truthy n_clicks = true).
Proof.
  split.
  - apply run_idle.
  - intros pipeline out Hout Htext.
    destruct (truthy n_clicks) eqn:Hclick; [reflexivity |].
    rewrite (run_idle _ _ pipeline _ st t Hclick) in Hout.
    injection Hout as <-. discriminate Htext.
Qed.

(** C2.  When the model file is missing at start-up the module-level
    pipeline is [None], and then every trigger (an invocation with a
    truthy click count) returns the text "Error", the danger colour, a
    probability bar at 0 and the caption "Model file not found.",
    without handing anything to the model: the trace of submitted data
    frames is left as it was. *)
Theorem unavailable_model_error joblib_load n_clicks st t :
  truthy n_clicks = true ->
  load_pipeline false joblib_load = Ok None
  /\ callback py_round float_str None n_clicks st t =
       (Ok (Outputs "Error" "text-danger" (Int 0) "danger"
                    "Model file not found."), t).
Proof.
  intros Hclick. split; [reflexivity | now apply run_no_model].
Qed.

(** C1.  When the model answers a trigger with the probability [p], the
    callback returns the label "Cancelled" with the bar colour "danger"
    if [0.5 <= p], the boundary included, and the label "Not Cancelled"
    with the bar colour "success" otherwise; so the label is "Cancelled"
    exactly when [0.5 <= p].  This holds for every float [p], in
    particular for those in [0, 1]. *)
Theorem threshold_decides_outcome
    (pipe : estimator) n_clicks st t (proba : ndarray) row0 p :
  truthy n_clicks = true ->
  pipe (submitted st) = Ok proba ->
  nth_error proba 0 = Some row0 ->
  nth_error row0 1 = Some p ->
  exists out,
    fst (callback py_round float_str (Some pipe) n_clicks st t) = Ok out
    /\ ((0.5 <=? p)%float = true ->
        prediction_text out = "Cancelled" /\ prob_bar_color out = "danger")
    /\ ((0.5 <=? p)%float = false ->
        prediction_text out = "Not Cancelled" /\ prob_bar_color out = "success")
    /\ (prediction_text out = "Cancelled" /\ prob_bar_color out = "danger"
        <-> (0.5 <=? p)%float = true).
Proof.
  intros Hclick Hanswer Hrow Hp.
  pose proof (cancel_probability_ok _ _ t _ _ _ Hanswer Hrow Hp) as Hscore.
  eexists. rewrite (run_scored py_round float_str _ _ _ _ _ _ Hclick Hscore).
  split; [reflexivity |]. cbn [fst prediction_text prob_bar_color].
  destruct (0.5 <=? p)%float; repeat split; try discriminate; intuition discriminate.
Qed.

(** C7.  The probability the callback works with is the entry at index
    1 of the first row of the model's answer, the probability of the
    second class: every output is computed from it, and the entry at
    index 0 plays no part. *)
Theorem second_class_probability_consumed
    (pipe : estimator) n_clicks st t (proba : ndarray) p0 p1 others :
  truthy n_clicks = true ->
  pipe (submitted st) = Ok proba ->
  nth_error proba 0 = Some (p0 :: p1 :: others) ->
  callback py_round float_str (Some pipe) n_clicks st t =
    (Ok (Outputs
           (if (0.5 <=? p1)%float then "Cancelled" else "Not Cancelled")
           (if (0.5 <=? p1)%float
            then "text-center text-danger font-weight-bold"
            else "text-center text-success font-weight-bold")
           (Float (py_round (p1 * 100)%float 2))
           (if (0.5 <=? p1)%float then "danger" else "success")
           (float_str (py_round (p1 * 100)%float 2) ++ "% Risk")),
     (t ++ [submitted st])%list).
Proof.
  intros Hclick Hanswer Hrow.
  apply run_scored; [assumption |].
  eapply cancel_probability_ok; [eassumption | eassumption | reflexivity].
Qed.

(** C4.  A fault raised by the model's [predict_proba], and more
    generally any fault raised while line 194 obtains the probability
    (the indexing of the answer included), is caught: the callback
    returns the text "Error", the danger colour, a probability bar at 0
    and the caption "Prediction failed: " followed by the text of the
    fault.  The callback returns on every input and never raises, so the
    next trigger is served like any other. *)
Theorem scoring_fault_reported :
  (forall (pipe : estimator) n_clicks st t e,
      truthy n_clicks = true ->
      pipe (submitted st) = Raise e ->
      callback py_round float_str (Some pipe) n_clicks st t =
        (Ok (Outputs "Error" "text-danger" (Int 0) "danger"
                     ("Prediction failed: " ++ exn_str e)),
         (t ++ [submitted st])%list))
  /\ (forall (pipe : estimator) n_clicks st t e,
        truthy n_clicks = true ->
        fst (cancel_probability pipe (submitted st) t) = Raise e ->
        callback py_round float_str (Some pipe) n_clicks st t =
          (Ok (Outputs "Error" "text-danger" (Int 0) "danger"
                       ("Prediction failed: " ++ exn_str e)),
           (t ++ [submitted st])%list))
  /\ (forall pipeline n_clicks st t,
        exists out, fst (callback py_round float_str pipeline n_clicks st t) = Ok out).
Proof.
  split; [| split].
  - intros pipe n_clicks st t e Hclick Hraise.
    apply run_fault; [assumption |].
    now apply cancel_probability_raises.
  - intros pipe n_clicks st t e Hclick Hraise.
    pose proof (cancel_probability_trace pipe (submitted st) t) as Htrace.
    destruct (cancel_probability pipe (submitted st) t) as [r t'] eqn:Hscore.
    cbn in Hraise, Htrace. subst r t'.
    now apply run_fault.
  - intros. apply run_returns.
Qed.

(** C8.  The outputs of the callback are a function of the click count,
    the sixteen component values and the model's answer to the submitted
    data frame alone: two invocations with the same inputs, made at any
    two points of the process' history and with pipelines that give the
    same answer, return the same five outputs and hand the same data
    frames to the model. *)
Theorem callback_deterministic pipeline1 pipeline2 n_clicks st t1 t2 :
  same_response pipeline1 pipeline2 (submitted st) ->
  fst (callback py_round float_str pipeline1 n_clicks st t1)
  = fst (callback py_round float_str pipeline2 n_clicks st t2)
  /\ exists calls,
      snd (callback py_round float_str pipeline1 n_clicks st t1) = (t1 ++ calls)%list
      /\ snd (callback py_round float_str pipeline2 n_clicks st t2) = (t2 ++ calls)%list.
Proof.
  intros Hsame.
  destruct (truthy n_clicks) eqn:Hclick.
  - destruct pipeline1 as [pipe1 |], pipeline2 as [pipe2 |];
      cbn in Hsame; try contradiction.
    + assert (Hscore : forall t, cancel_probability pipe2 (submitted st) t
                                 = cancel_probability pipe1 (submitted st) t).
      { intros t. unfold cancel_probability, bind, predict_proba.
        rewrite Hsame. reflexivity. }
      assert (Hfst : forall t t',
                 fst (cancel_probability pipe1 (submitted st) t)
                 = fst (cancel_probability pipe1 (submitted st) t')).
      { intros t t'. unfold cancel_probability, bind, predict_proba.
        destruct (pipe2 (submitted st)) as [proba | e];
          rewrite Hsame; [| reflexivity].
        destruct proba as [| [| p0 [| p1 ps]] rows]; reflexivity. }
      split.
      * pose proof (Hfst t1 t2) as H12. specialize (Hscore t2).
        destruct (cancel_probability pipe1 (submitted st) t1) as [r1 t1'] eqn:H1.
        destruct (cancel_probability pipe1 (submitted st) t2) as [r2 t2'] eqn:H2.
        cbn in H12. subst r2.
        destruct r1 as [p | e].
        -- rewrite (run_scored _ _ _ _ _ _ _ _ Hclick H1).
           rewrite (run_scored _ _ _ _ _ _ _ _ Hclick Hscore). reflexivity.
        -- rewrite (run_fault _ _ _ _ _ _ _ _ Hclick H1).
           rewrite (run_fault _ _ _ _ _ _ _ _ Hclick Hscore). reflexivity.
      * exists [submitted st]. split; now apply run_trace.
    + split.
      * now rewrite !run_no_model.
      * exists []. rewrite !run_no_model, !app_nil_r by assumption. now split.
  - split.
    + now rewrite !run_idle.
    + exists []. rewrite !run_idle, !app_nil_r by assumption. now split.
Qed.

(** C9.  On every trigger served by a loaded pipeline, the one record
    handed to the model holds, under each of the sixteen field names,
    the value of the corresponding component exactly as the callback
    received it, whatever that value is: nothing is rejected, clamped or
    converted. *)
Theorem state_values_unchanged (pipe : estimator) n_clicks st t :
  truthy n_clicks = true ->
  exists r,
    snd (callback py_round float_str (Some pipe) n_clicks st t) = (t ++ [[r]])%list
    /\ row_get r "vehicle_arrival_time" = Some (State.arrival_time st)
    /\ row_get r "distance" = Some (State.distance st)
    /\ row_get r "ride_cost" = Some (State.cost st)
    /\ row_get r "temperature" = Some (State.temp st)
    /\ row_get r "humidity" = Some (State.humidity st)
    /\ row_get r "precipitation_mm" = Some (State.precip st)
    /\ row_get r "vehicle_type" = Some (State.vehicle_type st)
    /\ row_get r "customer_patience" = Some (State.customer_patience st)
    /\ row_get r "pickup_zone" = Some (State.pickup_zone st)
    /\ row_get r "drop_zone" = Some (State.drop_zone st)
    /\ row_get r "historical_customer_rating_binned"
       = Some (State.historical_rating st)
    /\ row_get r "hour" = Some (State.hour st)
    /\ row_get r "day" = Some (State.day st)
    /\ row_get r "month" = Some (State.month st)
    /\ row_get r "day_of_month" = Some (State.day_of_month st)
    /\ row_get r "weather_condition" = Some (State.weather_condition st).
Proof.
  intros Hclick. rewrite (run_trace _ _ _ _ _ _ Hclick).
  eexists. split; [reflexivity |]. repeat split.
Qed.

(** C6, as amended.  On every trigger served by a loaded pipeline, the
    model receives one record whose field names are exactly the sixteen
    names of the schema, each once, each holding the value of its
    component as the callback received it; the fields are all non-null
    exactly when the sixteen component values are. *)
Theorem submitted_record_has_schema (pipe : estimator) n_clicks st t :
  truthy n_clicks = true ->
  exists r,
    snd (callback py_round float_str (Some pipe) n_clicks st t) = (t ++ [[r]])%list
    /\ map fst r = schema
    /\ map snd r =
       [ State.arrival_time st; State.distance st; State.cost st;
         State.temp st; State.humidity st; State.precip st;
         State.vehicle_type st; State.customer_patience st;
         State.pickup_zone st; State.drop_zone st;
         State.historical_rating st; State.hour st; State.day st;
         State.month st; State.day_of_month st;
         State.weather_condition st ]
    /\ NoDup (map fst r)
    /\ List.length r = 16%nat
    /\ (Forall non_null (State.values st)
        <-> Forall (fun kv => non_null (snd kv)) r).
Proof.
  intros Hclick. rewrite (run_trace _ _ _ _ _ _ Hclick).
  eexists. split; [reflexivity |].
  split; [reflexivity |]. split; [reflexivity |].
  split; [exact schema_NoDup |]. split; [reflexivity |].
  destruct st. unfold State.values. cbn.
  split; intros Hvalues;
    repeat match goal with
           | H : Forall _ (_ :: _) |- _ => inversion H; clear H; subst
           end;
    repeat constructor; assumption.
Qed.

End Claims.

(** CPython's [round(x, 2)] is [x] rounded to two decimal places. *)
Lemma float_round_rounds x :
  rounded_to_places 1 2 x (Builtins.float_round x 2).
Proof.
  unfold rounded_to_places, Builtins.float_round.
  destruct (Prim2SF x) as [s | s | | s m e]; try reflexivity.
  cbv zeta. change (0 <=? 2) with true. cbv iota.
  exists (Builtins.round_half_even
            (Zpos m * 2 ^ Z.max e 0 * 10 ^ 2) (2 ^ Z.max (- e) 0)).
  split; [| reflexivity].
  rewrite Z.mul_1_r.
  apply round_half_even_nearest. apply Z.pow_pos_nonneg; lia.
Qed.

(** [rint y] is [y] rounded to an integer. *)
Lemma rint_rounds y : rounded_to_places 1 0 y (Builtins.rint y).
Proof.
  unfold rounded_to_places, Builtins.rint.
  destruct (Prim2SF y) as [s | s | | s m e]; try reflexivity.
  cbv zeta.
  exists (Builtins.round_half_even
            (Zpos m * 2 ^ Z.max e 0) (2 ^ Z.max (- e) 0)).
  split; [| reflexivity].
  change (10 ^ 0) with 1. rewrite !Z.mul_1_r.
  apply round_half_even_nearest. apply Z.pow_pos_nonneg; lia.
Qed.

(** numpy's [round(x, 2)]: scale by 100, round to an integer, divide by
    100, each step in floating point. *)
Lemma numpy_round_2 x :
  Builtins.numpy_round x 2 = (Builtins.rint (x * 100) / 100)%float.
Proof.
  unfold Builtins.numpy_round. change (0 <=? 2) with true. cbv iota.
  assert (H : Builtins.power_of_ten 2 = 100%float) by (vm_compute; reflexivity).
  rewrite H. reflexivity.
Qed.

(** C3, as amended.  When the model answers a trigger with the
    probability [p], the value of the probability bar is
    [round(p * 100, 2)] computed on the float product [p * 100], and the
    caption is the text of that same value followed by "% Risk".  With
    CPython's [round] the value is the float product rounded to two
    decimal places.  With numpy's [round] it is the float quotient by 100
    of the integer nearest to the float product of [p * 100] and 100,
    which near a tie need not be the product rounded to two places.  For
    [p = 0.4567] both give 45.67, printed "45.67", and for [p = 0.123456]
    both give 12.35. *)
Theorem percentage_is_rounded_product :
  (forall py_round float_str (pipe : estimator) n_clicks st t
          (proba : ndarray) row0 p,
      truthy n_clicks = true ->
      pipe (submitted st) = Ok proba ->
      nth_error proba 0 = Some row0 ->
      nth_error row0 1 = Some p ->
      exists out,
        fst (callback py_round float_str (Some pipe) n_clicks st t) = Ok out
        /\ prob_bar_value out = Float (py_round (p * 100)%float 2)
        /\ prob_text out = float_str (py_round (p * 100)%float 2) ++ "% Risk")
  /\ (forall p,
        rounded_to_places 1 2 (p * 100)%float
                          (Builtins.float_round (p * 100)%float 2))
  /\ (forall p,
        Builtins.numpy_round (p * 100)%float 2
        = (Builtins.rint (p * 100 * 100) / 100)%float
        /\ rounded_to_places 1 0 (p * 100 * 100)%float
                             (Builtins.rint (p * 100 * 100)))
  /\ Builtins.float_round (0.4567 * 100)%float 2 = 45.67%float
  /\ Builtins.numpy_round (0.4567 * 100)%float 2 = 45.67%float
  /\ Builtins.float_repr 45.67%float = "45.67"
  /\ Builtins.float_round (0.123456 * 100)%float 2 = 12.35%float
  /\ Builtins.numpy_round (0.123456 * 100)%float 2 = 12.35%float.
Proof.
  split; [| split; [| split]].
  - intros py_round float_str pipe n_clicks st t proba row0 p
           Hclick Hanswer Hrow Hp.
    pose proof (cancel_probability_ok _ _ t _ _ _ Hanswer Hrow Hp) as Hscore.
    eexists. rewrite (run_scored py_round float_str _ _ _ _ _ _ Hclick Hscore).
    repeat split.
  - intros p. apply float_round_rounds.
  - intros p. split; [apply numpy_round_2 | apply rint_rounds].
  - repeat split; vm_compute; reflexivity.
Qed.

(* ------------------------------------------------------------------ *)
(** ** The callback on concrete inputs *)

(** The scenario of the specification: the layout's values, one click,
    and a model that gives the cancellation probability 0.73. *)
Example scenario_073 :
  callback Builtins.float_round Builtins.float_repr
           (Some (constant_model [0.27; 0.73]%float)) (Some 1) State.initial []
  = (Ok (Outputs "Cancelled" "text-center text-danger font-weight-bold"
                 (Float 73) "danger" "73.0% Risk"),
     [submitted State.initial]).
Proof. vm_compute. reflexivity. Qed.

Example scenario_073_numpy :
  fst (callback Builtins.numpy_round Builtins.float_repr
                (Some (constant_model [0.27; 0.73]%float)) (Some 1)
                State.initial [])
  = Ok (Outputs "Cancelled" "text-center text-danger font-weight-bold"
                (Float 73) "danger" "73.0% Risk").
Proof. vm_compute. reflexivity. Qed.

Example scenario_04567 :
  fst (callback Builtins.float_round Builtins.float_repr
                (Some (constant_model [0.5433; 0.4567]%float)) (Some 3)
                State.initial [])
  = Ok (Outputs "Not Cancelled" "text-center text-success font-weight-bold"
                (Float 45.67) "success" "45.67% Risk").
Proof. vm_compute. reflexivity. Qed.

(** A model with a single class: the indexing of line 194 raises, the
    handler reports it. *)
Example scenario_one_class :
  fst (callback Builtins.float_round Builtins.float_repr
                (Some (constant_model [1]%float)) (Some 1) State.initial [])
  = Ok (Outputs "Error" "text-danger" (Int 0) "danger"
                "Prediction failed: index 1 is out of bounds for axis 0 with size 1").
Proof. vm_compute. reflexivity. Qed.

(** The two rounding algorithms need not agree on a percentage: the
    product 0.00015 * 100 lies just below 0.015, and multiplying it by 100
    once more, as numpy does, lands on the tie 1.5. *)
Example rounding_algorithms_differ :
  Builtins.float_round (0.00015 * 100)%float 2 = 0.01%float
  /\ Builtins.numpy_round (0.00015 * 100)%float 2 = 0.02%float.
Proof. split; vm_compute; reflexivity. Qed.

(** C6, as stated, fails.  With the vehicle type cleared the trigger
    hands the model a record whose field "vehicle_type" is null: it is not
    true that every submitted record has the sixteen fields all
    non-null. *)
Lemma submitted_record_null_field :
  ~ (forall df r,
        In df (snd (callback Builtins.float_round Builtins.float_repr
                             (Some (constant_model [0.27; 0.73]%float))
                             (Some 1) cleared_vehicle_type [])) ->
        In r df ->
        map fst r = schema /\ Forall (fun kv => non_null (snd kv)) r).
Proof.
  intros Hall.
  destruct (Hall (submitted cleared_vehicle_type)
                 (hd [] (submitted cleared_vehicle_type))) as [_ Hnon_null].
  - rewrite run_trace by reflexivity. now left.
  - now left.
  - rewrite Forall_forall in Hnon_null.
    apply (Hnon_null ("vehicle_type", VNone)); [| reflexivity].
    cbn. tauto.
Qed.

Ltac evaluate_powers H :=
  repeat match type of H with
         | context [Z.max ?a ?b] =>
             let v := eval vm_compute in (Z.max a b) in
             change (Z.max a b) with v in H
         | context [Z.pow ?a ?b] =>
             let v := eval vm_compute in (Z.pow a b) in
             change (Z.pow a b) with v in H
         end.

(** C3, as stated, fails.  With numpy's rounding, which is what a model
    that answers in float64 arrays brings, the probability 0.30055 is
    displayed as 30.06, on the bar and in the caption.  That is not the
    probability multiplied by 100 and rounded to two decimal places,
    whether the product is taken in floating point or exactly: both
    products lie below 30.055, and 30.05 is the only decimal of two places
    nearest to them. *)
Lemma percentage_not_nearest_hundredth :
  exists out,
    fst (callback Builtins.numpy_round Builtins.float_repr
                  (Some (constant_model [0.69945; 0.30055]%float)) (Some 1)
                  State.initial []) = Ok out
    /\ prob_bar_value out = Float 30.06%float
    /\ prob_text out = "30.06% Risk"
    /\ ~ rounded_to_places 1 2 (0.30055 * 100)%float 30.06%float
    /\ ~ rounded_to_places 100 2 0.30055%float 30.06%float.
Proof.
  eexists. split; [vm_compute; reflexivity |].
  split; [reflexivity |]. split; [reflexivity |].
  split.
  - unfold rounded_to_places.
    assert (E : Prim2SF (0.30055 * 100)%float
                = S754_finite false 8459730425038766 (-48))
      by (vm_compute; reflexivity).
    rewrite E. cbv zeta. intros (k & Hk & Hd).
    evaluate_powers Hk.
    assert (k = 3005) by lia. subst k.
    apply (f_equal (fun f => (f =? 30.06)%float)) in Hd.
    vm_compute in Hd. discriminate Hd.
  - unfold rounded_to_places.
    assert (E : Prim2SF 0.30055%float
                = S754_finite false 5414227472024810 (-54))
      by (vm_compute; reflexivity).
    rewrite E. cbv zeta. intros (k & Hk & Hd).
    evaluate_powers Hk.
    assert (k = 3005) by lia. subst k.
    apply (f_equal (fun f => (f =? 30.06)%float)) in Hd.
    vm_compute in Hd. discriminate Hd.
Qed.

(* ------------------------------------------------------------------ *)
(** ** The theorems at concrete inputs *)

(** No click yet, with and without a pipeline. *)
Lemma idle_shows_ready_initially :
  callback Builtins.float_round Builtins.float_repr
           (Some (constant_model [0.27; 0.73]%float)) None State.initial []
  = (Ok (Outputs "Ready" "text-center text-muted" (Int 0) "info"
                 "Click Predict to start"), []).
Proof.
  apply (idle_shows_ready Builtins.float_round Builtins.float_repr).
  left. reflexivity.
Defined.

Lemma idle_check_precedes_model_check_at_zero :
  callback Builtins.float_round Builtins.float_repr None (Some 0) State.initial []
  = (Ok (Outputs "Ready" "text-center text-muted" (Int 0) "info"
                 "Click Predict to start"), []).
Proof.
  apply (proj1 (idle_check_precedes_model_check
                  Builtins.float_round Builtins.float_repr
                  (Some 0) State.initial [])).
  reflexivity.
Defined.

Lemma unavailable_model_error_second_click :
  load_pipeline false (Raise (Exn "FileNotFoundError" MODEL_FILE)) = Ok None
  /\ callback Builtins.float_round Builtins.float_repr None (Some 2) State.initial []
     = (Ok (Outputs "Error" "text-danger" (Int 0) "danger"
                    "Model file not found."), []).
Proof.
  apply (unavailable_model_error Builtins.float_round Builtins.float_repr).
  reflexivity.
Defined.

(** The boundary: a probability of exactly 0.5 is "Cancelled". *)
Lemma threshold_decides_outcome_at_half :
  exists out,
    fst (callback Builtins.float_round Builtins.float_repr
                  (Some (constant_model [0.5; 0.5]%float)) (Some 1)
                  State.initial []) = Ok out
    /\ ((0.5 <=? 0.5)%float = true ->
        prediction_text out = "Cancelled" /\ prob_bar_color out = "danger")
    /\ ((0.5 <=? 0.5)%float = false ->
        prediction_text out = "Not Cancelled" /\ prob_bar_color out = "success")
    /\ (prediction_text out = "Cancelled" /\ prob_bar_color out = "danger"
        <-> (0.5 <=? 0.5)%float = true).
Proof.
  apply (threshold_decides_outcome
           Builtins.float_round Builtins.float_repr
           (constant_model [0.5; 0.5]%float) (Some 1) State.initial []
           [[0.5; 0.5]%float] [0.5; 0.5]%float 0.5%float);
    reflexivity.
Defined.

(** With numpy's rounding, where rounding has something to do. *)
Lemma percentage_is_rounded_product_0123456 :
  exists out,
    fst (callback Builtins.numpy_round Builtins.float_repr
                  (Some (constant_model [0.876544; 0.123456]%float)) (Some 1)
                  State.initial []) = Ok out
    /\ prob_bar_value out = Float (Builtins.numpy_round (0.123456 * 100)%float 2)
    /\ prob_text out
       = Builtins.float_repr (Builtins.numpy_round (0.123456 * 100)%float 2)
           ++ "% Risk".
Proof.
  apply (proj1 percentage_is_rounded_product
           Builtins.numpy_round Builtins.float_repr
           (constant_model [0.876544; 0.123456]%float) (Some 1) State.initial []
           [[0.876544; 0.123456]%float] [0.876544; 0.123456]%float
           0.123456%float);
    reflexivity.
Defined.

(** The first class has probability 0.9, the second 0.1: not cancelled. *)
Lemma second_class_probability_consumed_09_01 :
  callback Builtins.float_round Builtins.float_repr
           (Some (constant_model [0.9; 0.1]%float)) (Some 1) State.initial []
  = (Ok (Outputs
           (if (0.5 <=? 0.1)%float then "Cancelled" else "Not Cancelled")
           (if (0.5 <=? 0.1)%float
            then "text-center text-danger font-weight-bold"
            else "text-center text-success font-weight-bold")
           (Float (Builtins.float_round (0.1 * 100)%float 2))
           (if (0.5 <=? 0.1)%float then "danger" else "success")
           (Builtins.float_repr (Builtins.float_round (0.1 * 100)%float 2)
              ++ "% Risk")),
     ([] ++ [submitted State.initial])%list).
Proof.
  apply (second_class_probability_consumed
           Builtins.float_round Builtins.float_repr
           (constant_model [0.9; 0.1]%float) (Some 1) State.initial []
           [[0.9; 0.1]%float] 0.9%float 0.1%float []);
    reflexivity.
Defined.

Lemma scoring_fault_reported_ValueError :
  callback Builtins.float_round Builtins.float_repr
           (Some (failing_model ValueError_bad_record)) (Some 1) State.initial []
  = (Ok (Outputs "Error" "text-danger" (Int 0) "danger"
                 ("Prediction failed: " ++ exn_str ValueError_bad_record)),
     ([] ++ [submitted State.initial])%list).
Proof.
  apply (proj1 (scoring_fault_reported Builtins.float_round Builtins.float_repr)
           (failing_model ValueError_bad_record) (Some 1) State.initial []
           ValueError_bad_record);
    reflexivity.
Defined.

Lemma callback_deterministic_two_models :
  fst (callback Builtins.float_round Builtins.float_repr
                (Some (constant_model [0.27; 0.73]%float)) (Some 1)
                State.initial [])
  = fst (callback Builtins.float_round Builtins.float_repr
                  (Some single_row_model) (Some 1)
                  State.initial [submitted out_of_range])
  /\ exists calls,
      snd (callback Builtins.float_round Builtins.float_repr
                    (Some (constant_model [0.27; 0.73]%float)) (Some 1)
                    State.initial [])
      = ([] ++ calls)%list
      /\ snd (callback Builtins.float_round Builtins.float_repr
                       (Some single_row_model) (Some 1)
                       State.initial [submitted out_of_range])
         = ([submitted out_of_range] ++ calls)%list.
Proof.
  apply (callback_deterministic
           Builtins.float_round Builtins.float_repr
           (Some (constant_model [0.27; 0.73]%float)) (Some single_row_model)
           (Some 1) State.initial [] [submitted out_of_range]).
  reflexivity.
Defined.

(** Month 13, day 32, humidity 250 and precipitation -3.5 reach the model. *)
Lemma state_values_unchanged_out_of_range :
  exists r,
    snd (callback Builtins.float_round Builtins.float_repr
                  (Some (constant_model [0.27; 0.73]%float)) (Some 1)
                  out_of_range [])
    = ([] ++ [[r]])%list
    /\ row_get r "vehicle_arrival_time" = Some (State.arrival_time out_of_range)
    /\ row_get r "distance" = Some (State.distance out_of_range)
    /\ row_get r "ride_cost" = Some (State.cost out_of_range)
    /\ row_get r "temperature" = Some (State.temp out_of_range)
    /\ row_get r "humidity" = Some (State.humidity out_of_range)
    /\ row_get r "precipitation_mm" = Some (State.precip out_of_range)
    /\ row_get r "vehicle_type" = Some (State.vehicle_type out_of_range)
    /\ row_get r "customer_patience" = Some (State.customer_patience out_of_range)
    /\ row_get r "pickup_zone" = Some (State.pickup_zone out_of_range)
    /\ row_get r "drop_zone" = Some (State.drop_zone out_of_range)
    /\ row_get r "historical_customer_rating_binned"
       = Some (State.historical_rating out_of_range)
    /\ row_get r "hour" = Some (State.hour out_of_range)
    /\ row_get r "day" = Some (State.day out_of_range)
    /\ row_get r "month" = Some (State.month out_of_range)
    /\ row_get r "day_of_month" = Some (State.day_of_month out_of_range)
    /\ row_get r "weather_condition" = Some (State.weather_condition out_of_range).
Proof.
  apply (state_values_unchanged
           Builtins.float_round Builtins.float_repr
           (constant_model [0.27; 0.73]%float) (Some 1) out_of_range []).
  reflexivity.
Defined.

Lemma submitted_record_has_schema_initial :
  exists r,
    snd (callback Builtins.float_round Builtins.float_repr
                  (Some (constant_model [0.27; 0.73]%float)) (Some 1)
                  State.initial [])
    = ([] ++ [[r]])%list
    /\ map fst r = schema
    /\ map snd r =
       [ State.arrival_time State.initial; State.distance State.initial;
         State.cost State.initial; State.temp State.initial;
         State.humidity State.initial; State.precip State.initial;
         State.vehicle_type State.initial;
         State.customer_patience State.initial;
         State.pickup_zone State.initial; State.drop_zone State.initial;
         State.historical_rating State.initial; State.hour State.initial;
         State.day State.initial; State.month State.initial;
         State.day_of_month State.initial;
         State.weather_condition State.initial ]
    /\ NoDup (map fst r)
    /\ List.length r = 16%nat
    /\ (Forall non_null (State.values State.initial)
        <-> Forall (fun kv => non_null (snd kv)) r).
Proof.
  apply (submitted_record_has_schema
           Builtins.float_round Builtins.float_repr
           (constant_model [0.27; 0.73]%float) (Some 1) State.initial []).
  reflexivity.
Defined.

(* ------------------------------------------------------------------ *)
(** ** The order of floats *)

Ltac split_compare :=
  repeat match goal with
         | H : context [Pos.compare_cont Eq ?x ?y] |- _ =>
             change (Pos.compare_cont Eq x y) with (Pos.compare x y) in H
         | |- context [Pos.compare_cont Eq ?x ?y] =>
             change (Pos.compare_cont Eq x y) with (Pos.compare x y)
         end;
  repeat match goal with
         | H : context [Z.compare ?x ?y] |- _ => destruct (Z.compare_spec x y)
         | |- context [Z.compare ?x ?y] => destruct (Z.compare_spec x y)
         | H : context [Pos.compare ?x ?y] |- _ => destruct (Pos.compare_spec x y)
         | |- context [Pos.compare ?x ?y] => destruct (Pos.compare_spec x y)
         end.

Lemma SFleb_trans a b c :
  SFleb a b = true -> SFleb b c = true -> SFleb a c = true.
Proof.
  unfold SFleb, SFcompare.
  destruct a as [[|] | [|] | | [|] ma ea], b as [[|] | [|] | | [|] mb eb],
      c as [[|] | [|] | | [|] mc ec];
    try reflexivity; try discriminate; intros Hab Hbc;
    split_compare; cbn in *; try reflexivity; try discriminate; try lia.
Qed.

(** Two numbers are comparable: [a <= b] fails exactly when [b < a]. *)
Lemma SFleb_false_iff a b :
  a <> S754_nan -> b <> S754_nan ->
  SFleb a b = false <-> SFltb b a = true.
Proof.
  unfold SFleb, SFltb, SFcompare. intros Ha Hb.
  destruct a as [[|] | [|] | | [|] ma ea], b as [[|] | [|] | | [|] mb eb];
    try contradiction; split; intros H;
    try reflexivity; try discriminate;
    split_compare; cbn in *; try reflexivity; try discriminate; try lia.
Qed.

Lemma Prim2SF_nan p : is_nan p = true -> Prim2SF p = S754_nan.
Proof. intros Hnan. unfold Prim2SF. rewrite Hnan. reflexivity. Qed.

Lemma Prim2SF_number p : is_nan p = false -> Prim2SF p <> S754_nan.
Proof.
  intros Hnan. unfold Prim2SF. rewrite Hnan.
  destruct (is_zero p); [discriminate |].
  destruct (is_infinity p); [discriminate |].
  destruct (Z.frexp p) as [r e].
  destruct (shr_fexp prec emax _ _ _) as [shr e'].
  destruct (shr_m shr); discriminate.
Qed.

Lemma leb_trans (a b c : float) :
  (a <=? b)%float = true -> (b <=? c)%float = true -> (a <=? c)%float = true.
Proof. rewrite !leb_spec. apply SFleb_trans. Qed.

Lemma SFleb_ltb_trans a b c :
  SFleb a b = true -> SFltb b c = true -> SFltb a c = true.
Proof.
  unfold SFleb, SFltb, SFcompare.
  destruct a as [[|] | [|] | | [|] ma ea], b as [[|] | [|] | | [|] mb eb],
      c as [[|] | [|] | | [|] mc ec];
    try reflexivity; try discriminate; intros Hab Hbc;
    split_compare; cbn in *; try reflexivity; try discriminate; try lia.
Qed.

Lemma SFltb_leb a b : SFltb a b = true -> SFleb a b = true.
Proof.
  unfold SFleb, SFltb. destruct (SFcompare a b) as [[| |] |]; auto.
Qed.

(** Nothing is at once above [b] and below it. *)
Lemma leb_ltb_false (a b p : float) :
  (b <=? a)%float = true -> (p <? b)%float = true -> (a <=? p)%float = false.
Proof.
  rewrite !leb_spec, ltb_spec. intros Hba Hpb.
  destruct (SFleb (Prim2SF a) (Prim2SF p)) eqn:Hap; [| reflexivity].
  pose proof (SFleb_ltb_trans _ _ _ (SFleb_trans _ _ _ Hba Hap) Hpb) as Hbb.
  unfold SFltb, SFcompare in Hbb.
  destruct (Prim2SF b) as [[|] | [|] | | [|] mb eb]; try discriminate Hbb.
  - rewrite Z.compare_refl in Hbb.
    change (Pos.compare_cont Eq mb mb) with (Pos.compare mb mb) in Hbb.
    rewrite Pos.compare_refl in Hbb. discriminate Hbb.
  - rewrite Z.compare_refl in Hbb.
    change (Pos.compare_cont Eq mb mb) with (Pos.compare mb mb) in Hbb.
    rewrite Pos.compare_refl in Hbb. discriminate Hbb.
Qed.

Lemma ltb_leb (a b : float) : (a <? b)%float = true -> (a <=? b)%float = true.
Proof. rewrite leb_spec, ltb_spec. apply SFltb_leb. Qed.

Lemma leb_nan_r (a p : float) : is_nan p = true -> (a <=? p)%float = false.
Proof.
  intros Hnan. rewrite leb_spec, (Prim2SF_nan p Hnan).
  unfold SFleb, SFcompare. destruct (Prim2SF a); reflexivity.
Qed.

Lemma leb_false_iff_ltb (a p : float) :
  is_nan a = false -> is_nan p = false ->
  (a <=? p)%float = false <-> (p <? a)%float = true.
Proof.
  intros Ha Hp. rewrite leb_spec, ltb_spec.
  apply SFleb_false_iff; now apply Prim2SF_number.
Qed.

(** A float that some number bounds from below is a number. *)
Lemma leb_number (a p : float) : (a <=? p)%float = true -> is_nan p = false.
Proof.
  intros Hle. destruct (is_nan p) eqn:Hnan; [| reflexivity].
  rewrite (leb_nan_r a p Hnan) in Hle. discriminate Hle.
Qed.

Lemma string_length_append s1 s2 :
  String.length (s1 ++ s2) = (String.length s1 + String.length s2)%nat.
Proof.
  induction s1 as [| c s1 IH]; cbn; [reflexivity | now rewrite IH].
Qed.

(** No caption of a prediction is the caption of the missing model. *)
Lemma risk_caption_not_missing s : s ++ "% Risk" <> "Model file not found.".
Proof.
  intros H.
  assert (Hlen : String.length s = 15%nat).
  { apply (f_equal String.length) in H.
    rewrite string_length_append in H. cbn in H. lia. }
  do 15 (destruct s as [| ? s]; [discriminate Hlen |]).
  destruct s; [| discriminate Hlen].
  cbn in H. congruence.
Qed.

(* ------------------------------------------------------------------ *)
(** ** Further properties of the callback *)

Section Displays.

Variable py_round : float -> Z -> float.
Variable float_str : float -> string.

(** The four paths through the callback, with what each returns. *)
Lemma run_cases pipeline n_clicks st t :
  (truthy n_clicks = false
   /\ callback py_round float_str pipeline n_clicks st t =
        (Ok (Outputs "Ready" "text-center text-muted" (Int 0) "info"
                     "Click Predict to start"), t))
  \/ (truthy n_clicks = true /\ pipeline = None
      /\ callback py_round float_str pipeline n_clicks st t =
           (Ok (Outputs "Error" "text-danger" (Int 0) "danger"
                        "Model file not found."), t))
  \/ (truthy n_clicks = true
      /\ exists pipe e,
          pipeline = Some pipe
          /\ callback py_round float_str pipeline n_clicks st t =
               (Ok (Outputs "Error" "text-danger" (Int 0) "danger"
                            ("Prediction failed: " ++ exn_str e)),
                (t ++ [submitted st])%list))
  \/ (truthy n_clicks = true
      /\ exists pipe p,
          pipeline = Some pipe
          /\ callback py_round float_str pipeline n_clicks st t =
               (Ok (Outputs
                      (if (0.5 <=? p)%float then "Cancelled" else "Not Cancelled")
                      (if (0.5 <=? p)%float
                       then "text-center text-danger font-weight-bold"
                       else "text-center text-success font-weight-bold")
                      (Float (py_round (p * 100)%float 2))
                      (if (0.5 <=? p)%float then "danger" else "success")
                      (float_str (py_round (p * 100)%float 2) ++ "% Risk")),
                (t ++ [submitted st])%list)).
Proof.
  destruct (truthy n_clicks) eqn:Hclick.
  - destruct pipeline as [pipe |].
    + pose proof (cancel_probability_trace pipe (submitted st) t) as Htrace.
      destruct (cancel_probability pipe (submitted st) t) as [[p | e] t'] eqn:Hscore;
        cbn in Htrace; subst t'.
      * right; right; right. split; [reflexivity |]. exists pipe, p.
        split; [reflexivity |]. now apply run_scored.
      * right; right; left. split; [reflexivity |]. exists pipe, e.
        split; [reflexivity |]. now apply run_fault.
    + right; left. repeat split. now apply run_no_model.
  - left. split; [reflexivity |]. now apply run_idle.
Qed.

(** The result does not depend on the trace, and the trace only grows. *)
Lemma run_frame pipeline n_clicks st t :
  callback py_round float_str pipeline n_clicks st t
  = (fst (callback py_round float_str pipeline n_clicks st []),
     (t ++ calls_of pipeline n_clicks st)%list).
Proof.
  unfold callback, predict_cancellation, calls_of.
  destruct (truthy n_clicks); cbn [negb];
    [| destruct pipeline; cbn; now rewrite app_nil_r].
  destruct pipeline as [pipe |]; [| cbn; now rewrite app_nil_r].
  fold (submitted st).
  unfold try_except, bind, cancel_probability, bind, predict_proba.
  destruct (pipe (submitted st)) as [proba | e]; [| reflexivity].
  destruct proba as [| [| p0 [| p1 ps]] rows]; try reflexivity.
  cbn. destruct (0.5 <=? p1)%float; reflexivity.
Qed.

(** X1.  An invocation hands the model one data frame, the one built
    from its own component values, when the click count is a non-zero
    integer and a pipeline is loaded, and none otherwise; what earlier
    invocations submitted is left as it was. *)
Theorem model_consulted_once_per_click pipeline n_clicks st t :
  snd (callback py_round float_str pipeline n_clicks st t)
  = (t ++ calls_of pipeline n_clicks st)%list
  /\ (calls_of pipeline n_clicks st = [submitted st]
      \/ calls_of pipeline n_clicks st = [])
  /\ (calls_of pipeline n_clicks st = []
      <-> pipeline = None \/ n_clicks = None \/ n_clicks = Some 0).
Proof.
  split; [| split].
  - unfold calls_of.
    destruct (run_cases pipeline n_clicks st t)
      as [[Hclick Hrun] | [[Hclick [Hnone Hrun]] | [[Hclick Hrun] | [Hclick Hrun]]]].
    + rewrite Hrun, Hclick. destruct pipeline; cbn; now rewrite app_nil_r.
    + rewrite Hrun, Hnone. cbn. now rewrite app_nil_r.
    + destruct Hrun as (pipe & e & -> & ->). now rewrite Hclick.
    + destruct Hrun as (pipe & p & -> & ->). now rewrite Hclick.
  - unfold calls_of. destruct pipeline, (truthy n_clicks); auto.
  - unfold calls_of. rewrite <- truthy_false_iff.
    destruct pipeline as [pipe |], (truthy n_clicks); split;
      try discriminate; auto; intros [H | H]; discriminate H.
Qed.

(** X2.  Whatever the inputs, the callback shows one of four displays:
    the Ready display, the Error display (danger, bar at the integer 0),
    or one of the two predictions, "Cancelled" in danger and
    "Not Cancelled" in success, and only these two carry a float on the
    bar. *)
Theorem display_is_one_of_four pipeline n_clicks st t out :
  fst (callback py_round float_str pipeline n_clicks st t) = Ok out ->
  out = Outputs "Ready" "text-center text-muted" (Int 0) "info"
                "Click Predict to start"
  \/ (exists caption,
         out = Outputs "Error" "text-danger" (Int 0) "danger" caption)
  \/ (exists x caption,
         out = Outputs "Cancelled" "text-center text-danger font-weight-bold"
                       (Float x) "danger" caption)
  \/ (exists x caption,
         out = Outputs "Not Cancelled"
                       "text-center text-success font-weight-bold"
                       (Float x) "success" caption).
Proof.
  intros Hout.
  destruct (run_cases pipeline n_clicks st t)
    as [[_ Hrun] | [[_ [_ Hrun]] | [[_ Hrun] | [_ Hrun]]]].
  - rewrite Hrun in Hout. injection Hout as <-. now left.
  - rewrite Hrun in Hout. injection Hout as <-. right; left. now eexists.
  - destruct Hrun as (pipe & e & _ & Hrun).
    rewrite Hrun in Hout. injection Hout as <-. right; left. now eexists.
  - destruct Hrun as (pipe & p & _ & Hrun).
    rewrite Hrun in Hout. injection Hout as <-.
    destruct (0.5 <=? p)%float.
    + right; right; left. now do 2 eexists.
    + right; right; right. now do 2 eexists.
Qed.

(** The caption of the missing model comes from lines 171-172 only. *)
Lemma missing_caption_inv pipeline n_clicks st t out :
  fst (callback py_round float_str pipeline n_clicks st t) = Ok out ->
  prob_text out = "Model file not found." ->
  truthy n_clicks = true /\ pipeline = None.
Proof.
  intros Hout Hcaption.
  destruct (run_cases pipeline n_clicks st t)
    as [[Hclick Hrun] | [[Hclick [Hnone Hrun]] | [[Hclick Hrun] | [Hclick Hrun]]]].
  - rewrite Hrun in Hout. injection Hout as <-. discriminate Hcaption.
  - now split.
  - destruct Hrun as (pipe & e & _ & Hrun).
    rewrite Hrun in Hout. injection Hout as <-. discriminate Hcaption.
  - destruct Hrun as (pipe & p & _ & Hrun).
    rewrite Hrun in Hout. injection Hout as <-. cbn [prob_text] in Hcaption.
    now apply risk_caption_not_missing in Hcaption.
Qed.

(** X3.  The caption "Model file not found." is shown exactly when the
    button was clicked and no pipeline is loaded: a loaded pipeline never
    leads to it, whatever the model answers or raises. *)
Theorem missing_model_caption_iff pipeline n_clicks st t out :
  fst (callback py_round float_str pipeline n_clicks st t) = Ok out ->
  prob_text out = "Model file not found."
  <-> truthy n_clicks = true /\ pipeline = None.
Proof.
  intros Hout. split.
  - now apply missing_caption_inv with (st := st) (t := t).
  - intros [Hclick ->].
    rewrite (run_no_model py_round float_str _ st t Hclick) in Hout.
    now injection Hout as <-.
Qed.

(** X4.  The text "Ready" is shown exactly when the click count is
    [None] or [0]; any other integer, a negative one as well, counts as a
    click. *)
Theorem ready_iff_no_click pipeline n_clicks st t out :
  fst (callback py_round float_str pipeline n_clicks st t) = Ok out ->
  prediction_text out = "Ready" <-> n_clicks = None \/ n_clicks = Some 0.
Proof.
  intros Hout. rewrite <- truthy_false_iff.
  destruct (run_cases pipeline n_clicks st t)
    as [[Hclick Hrun] | [[Hclick [_ Hrun]] | [[Hclick Hrun] | [Hclick Hrun]]]].
  - rewrite Hrun in Hout. injection Hout as <-. now split.
  - rewrite Hrun in Hout. injection Hout as <-. rewrite Hclick.
    split; discriminate.
  - destruct Hrun as (pipe & e & _ & Hrun).
    rewrite Hrun in Hout. injection Hout as <-. rewrite Hclick.
    split; discriminate.
  - destruct Hrun as (pipe & p & _ & Hrun).
    rewrite Hrun in Hout. injection Hout as <-. rewrite Hclick.
    cbn [prediction_text]. destruct (0.5 <=? p)%float; split; discriminate.
Qed.

End Displays.

Section Scoring.

Variable py_round : float -> Z -> float.
Variable float_str : float -> string.

(** X5.  When the model answers with a number [p] (any float but NaN,
    so every [p] of [0, 1]), the label is "Not Cancelled" exactly when
    [p < 0.5], and "Cancelled" exactly when [0.5 <= p]. *)
Theorem not_cancelled_iff_below_half
    (pipe : estimator) n_clicks st t (proba : ndarray) row0 p :
  truthy n_clicks = true ->
  pipe (submitted st) = Ok proba ->
  nth_error proba 0 = Some row0 ->
  nth_error row0 1 = Some p ->
  is_nan p = false ->
  exists out,
    fst (callback py_round float_str (Some pipe) n_clicks st t) = Ok out
    /\ (prediction_text out = "Not Cancelled" <-> (p <? 0.5)%float = true)
    /\ (prediction_text out = "Cancelled" <-> (0.5 <=? p)%float = true).
Proof.
  intros Hclick Hanswer Hrow Hp Hnumber.
  pose proof (cancel_probability_ok _ _ t _ _ _ Hanswer Hrow Hp) as Hscore.
  eexists. rewrite (run_scored py_round float_str _ _ _ _ _ _ Hclick Hscore).
  split; [reflexivity |]. cbn [fst prediction_text].
  rewrite <- (leb_false_iff_ltb 0.5 p eq_refl Hnumber).
  destruct (0.5 <=? p)%float; repeat split; try discriminate; reflexivity.
Qed.

(** X6.  When the model answers with NaN, the comparison with the
    threshold fails and the callback shows "Not Cancelled" in success:
    NaN is not reported as an error. *)
Theorem nan_probability_not_cancelled
    (pipe : estimator) n_clicks st t (proba : ndarray) row0 p :
  truthy n_clicks = true ->
  pipe (submitted st) = Ok proba ->
  nth_error proba 0 = Some row0 ->
  nth_error row0 1 = Some p ->
  is_nan p = true ->
  callback py_round float_str (Some pipe) n_clicks st t =
    (Ok (Outputs "Not Cancelled" "text-center text-success font-weight-bold"
                 (Float (py_round (p * 100)%float 2)) "success"
                 (float_str (py_round (p * 100)%float 2) ++ "% Risk")),
     (t ++ [submitted st])%list).
Proof.
  intros Hclick Hanswer Hrow Hp Hnan.
  pose proof (cancel_probability_ok _ _ t _ _ _ Hanswer Hrow Hp) as Hscore.
  rewrite (run_scored py_round float_str _ _ _ _ _ _ Hclick Hscore).
  now rewrite (leb_nan_r 0.5 p Hnan).
Qed.

(** X7.  The prediction is monotone in the probability: if the label is
    "Cancelled" for the probability [p], it is "Cancelled" for every
    probability [q] with [p <= q]. *)
Theorem higher_probability_stays_cancelled
    (pipe1 pipe2 : estimator) n_clicks st t1 t2
    (proba1 proba2 : ndarray) row1 row2 p q out1 :
  truthy n_clicks = true ->
  pipe1 (submitted st) = Ok proba1 ->
  nth_error proba1 0 = Some row1 ->
  nth_error row1 1 = Some p ->
  pipe2 (submitted st) = Ok proba2 ->
  nth_error proba2 0 = Some row2 ->
  nth_error row2 1 = Some q ->
  (p <=? q)%float = true ->
  fst (callback py_round float_str (Some pipe1) n_clicks st t1) = Ok out1 ->
  prediction_text out1 = "Cancelled" ->
  exists out2,
    fst (callback py_round float_str (Some pipe2) n_clicks st t2) = Ok out2
    /\ prediction_text out2 = "Cancelled".
Proof.
  intros Hclick Hanswer1 Hrow1 Hp Hanswer2 Hrow2 Hq Hle Hout1 Htext.
  pose proof (cancel_probability_ok _ _ t1 _ _ _ Hanswer1 Hrow1 Hp) as Hscore1.
  pose proof (cancel_probability_ok _ _ t2 _ _ _ Hanswer2 Hrow2 Hq) as Hscore2.
  rewrite (run_scored py_round float_str _ _ _ _ _ _ Hclick Hscore1) in Hout1.
  injection Hout1 as <-. cbn [prediction_text] in Htext.
  eexists. rewrite (run_scored py_round float_str _ _ _ _ _ _ Hclick Hscore2).
  split; [reflexivity |]. cbn [prediction_text].
  destruct (0.5 <=? p)%float eqn:Hhalf; [| discriminate Htext].
  now rewrite (leb_trans _ _ _ Hhalf Hle).
Qed.

(** X8.  An answer too short to hold a second class probability is not
    scored but reported as a failed prediction: an empty array fails at
    index 0, and a first row with fewer than two entries fails at index 1
    with the size of that row in the message. *)
Theorem short_answer_is_reported (pipe : estimator) n_clicks st t :
  truthy n_clicks = true ->
  (pipe (submitted st) = Ok [] ->
   callback py_round float_str (Some pipe) n_clicks st t =
     (Ok (Outputs "Error" "text-danger" (Int 0) "danger"
                  "Prediction failed: index 0 is out of bounds for axis 0 with size 0"),
      (t ++ [submitted st])%list))
  /\ (forall row0 rows,
         pipe (submitted st) = Ok (row0 :: rows) ->
         (List.length row0 < 2)%nat ->
         callback py_round float_str (Some pipe) n_clicks st t =
           (Ok (Outputs "Error" "text-danger" (Int 0) "danger"
                        ("Prediction failed: index 1 is out of bounds for axis 0 with size "
                           ++ nat_str (List.length row0))),
            (t ++ [submitted st])%list)).
Proof.
  intros Hclick.
  assert (Hfault : forall proba i (a : list float),
             pipe (submitted st) = Ok proba ->
             cancel_probability pipe (submitted st) t
             = (Raise (Exn "IndexError"
                           ("index " ++ nat_str i
                              ++ " is out of bounds for axis 0 with size "
                              ++ nat_str (List.length a))),
                (t ++ [submitted st])%list) ->
             callback py_round float_str (Some pipe) n_clicks st t =
               (Ok (Outputs "Error" "text-danger" (Int 0) "danger"
                            ("Prediction failed: index " ++ nat_str i
                               ++ " is out of bounds for axis 0 with size "
                               ++ nat_str (List.length a))),
                (t ++ [submitted st])%list)).
  { intros proba i a _ Hscore.
    now rewrite (run_fault py_round float_str _ _ _ _ _ _ Hclick Hscore). }
  split.
  - intros Hanswer. apply (Hfault [] 0%nat (@nil float) Hanswer).
    unfold cancel_probability, bind, predict_proba. rewrite Hanswer.
    reflexivity.
  - intros row0 rows Hanswer Hshort.
    apply (Hfault (row0 :: rows) 1%nat row0 Hanswer).
    unfold cancel_probability, bind, predict_proba. rewrite Hanswer.
    destruct row0 as [| p0 [| p1 ps]]; [reflexivity | reflexivity |].
    cbn in Hshort. lia.
Qed.

(** X9.  The triggers of a process do not influence one another: in a
    session of invocations served one after the other, each display is
    the one that invocation gives when it is served alone, and the model
    receives, in order, one data frame per invocation that consults it. *)
Theorem session_of_independent_triggers pipeline events t :
  exists outs,
    session py_round float_str pipeline events t
    = (Ok outs,
       (t ++ flat_map (fun ev => calls_of pipeline (fst ev) (snd ev)) events)%list)
    /\ Forall2
         (fun ev out =>
            fst (callback py_round float_str pipeline (fst ev) (snd ev) []) = Ok out)
         events outs.
Proof.
  revert t. induction events as [| [n_clicks st] events IH]; intros t.
  - exists []. cbn. rewrite app_nil_r. split; [reflexivity | constructor].
  - cbn [session flat_map fst snd]. unfold bind at 1.
    destruct (run_returns py_round float_str pipeline n_clicks st [])
      as [out Halone].
    rewrite (run_frame py_round float_str pipeline n_clicks st t), Halone.
    destruct (IH (t ++ calls_of pipeline n_clicks st)%list) as (outs & Hrest & Hall).
    exists (out :: outs). unfold bind. rewrite Hrest. cbn [ret].
    rewrite <- app_assoc. split; [reflexivity |].
    constructor; assumption.
Qed.

(** X14.  The probability is not checked against [0, 1]: a model
    answer above 1 is displayed as "Cancelled" and one below 0 as
    "Not Cancelled", each with its rounded percentage on the bar. *)
Theorem out_of_range_probability_displayed
    (pipe : estimator) n_clicks st t (proba : ndarray) row0 p :
  truthy n_clicks = true ->
  pipe (submitted st) = Ok proba ->
  nth_error proba 0 = Some row0 ->
  nth_error row0 1 = Some p ->
  ((1 <? p)%float = true ->
   callback py_round float_str (Some pipe) n_clicks st t =
     (Ok (Outputs "Cancelled" "text-center text-danger font-weight-bold"
                  (Float (py_round (p * 100)%float 2)) "danger"
                  (float_str (py_round (p * 100)%float 2) ++ "% Risk")),
      (t ++ [submitted st])%list))
  /\ ((p <? 0)%float = true ->
      callback py_round float_str (Some pipe) n_clicks st t =
        (Ok (Outputs "Not Cancelled" "text-center text-success font-weight-bold"
                     (Float (py_round (p * 100)%float 2)) "success"
                     (float_str (py_round (p * 100)%float 2) ++ "% Risk")),
         (t ++ [submitted st])%list)).
Proof.
  intros Hclick Hanswer Hrow Hp.
  pose proof (cancel_probability_ok _ _ t _ _ _ Hanswer Hrow Hp) as Hscore.
  rewrite (run_scored py_round float_str _ _ _ _ _ _ Hclick Hscore).
  split.
  - intros Habove.
    assert (Hhalf : (0.5 <=? p)%float = true).
    { apply (leb_trans _ 1%float); [reflexivity | now apply ltb_leb]. }
    now rewrite Hhalf.
  - intros Hbelow.
    assert (Hhalf : (0.5 <=? p)%float = false).
    { apply (leb_ltb_false _ 0%float); [reflexivity | assumption]. }
    now rewrite Hhalf.
Qed.

End Scoring.

Section StartUp.

Variable py_round : float -> Z -> float.
Variable float_str : float -> string.

(** X10.  The caption "Model file not found." does not tell whether
    the file was found.  After a start-up that completes, a trigger
    shows it exactly when the button was clicked and [pipeline] is
    [None], that is when the file was missing or when it unpickled to
    [None]; in the second case start-up has printed
    "Model loaded from ..." and not the ERROR line. *)
Theorem missing_caption_after_startup path_exists joblib_load pipeline printed :
  startup path_exists joblib_load = (Ok pipeline, printed) ->
  load_pipeline path_exists joblib_load = Ok pipeline
  /\ (forall n_clicks st t out,
        fst (callback py_round float_str pipeline n_clicks st t) = Ok out ->
        prob_text out = "Model file not found."
        <-> truthy n_clicks = true
            /\ (path_exists = false \/ joblib_load = Ok None))
  /\ (path_exists = true ->
      printed = ["Model loaded from cancellation_model_pipeline.joblib"])
  /\ (path_exists = false ->
      printed =
        ["ERROR: cancellation_model_pipeline.joblib not found. Please ensure the model file is in the same directory."]).
Proof.
  intros Hstart.
  assert (Hload : load_pipeline path_exists joblib_load = Ok pipeline).
  { unfold startup in Hstart. unfold load_pipeline.
    destruct path_exists; [destruct joblib_load as [loaded | e] |];
      now injection Hstart as <- _. }
  split; [exact Hload | split; [| split]].
  - intros n_clicks st t out Hout.
    rewrite <- load_pipeline_None_iff, Hload. split.
    + intros Hcaption.
      destruct (missing_caption_inv _ _ _ _ _ _ _ Hout Hcaption) as [Hclick ->].
      now split.
    + intros [Hclick Hnone]. injection Hnone as ->.
      rewrite (run_no_model py_round float_str _ st t Hclick) in Hout.
      now injection Hout as <-.
  - intros ->. unfold startup in Hstart.
    destruct joblib_load as [loaded | e]; now injection Hstart as _ <-.
  - intros ->. unfold startup in Hstart. now injection Hstart as _ <-.
Qed.

End StartUp.

(* ------------------------------------------------------------------ *)
(** ** The layout and the callback's dependencies *)

(** X11.  The dependencies of the callback fit the layout: the ids of
    the layout are pairwise different; every [Output], [Input] and
    [State] names a component of the layout; every one of the sixteen
    [State]s reads the property [value] of a component to which the
    layout gives a non-null initial value; and no dependency is listed
    twice. *)
Theorem callback_wiring_sound :
  NoDup (map Layout.id_of Layout.components)
  /\ Forall (fun dep => exists c,
                 Layout.find (fst dep) = Some c /\ Layout.id_of c = fst dep)
            (Layout.callback_outputs ++ Layout.callback_inputs
               ++ Layout.callback_states)
  /\ Forall (fun dep => snd dep = "value"
                        /\ exists c v,
                            Layout.find (fst dep) = Some c
                            /\ Layout.value_of c = Some v /\ non_null v)
            Layout.callback_states
  /\ NoDup Layout.callback_outputs
  /\ NoDup Layout.callback_states
  /\ List.length Layout.callback_states = 16%nat
  /\ List.length Layout.callback_outputs = 5%nat.
Proof.
  split; [| split; [| split; [| split; [| split; [| split]]]]].
  - cbn. repeat (constructor; [cbn; intuition discriminate |]). constructor.
  - repeat constructor; cbn; eexists; split; reflexivity.
  - repeat constructor; cbn; try reflexivity;
      do 2 eexists; repeat split; try reflexivity; discriminate.
  - repeat (constructor; [cbn; intuition discriminate |]). constructor.
  - repeat (constructor; [cbn; intuition discriminate |]). constructor.
  - reflexivity.
  - reflexivity.
Qed.

(** X12.  The initial values of the layout are values the components
    can take: each drop-down starts on one of its options and lists no
    option twice; each slider starts on a position of its grid
    [min, min + step, ..., max], as does each of its marks; and the hour
    input starts within its bounds 0 and 23. *)
Theorem layout_components_sound : Forall Layout.sound Layout.components.
Proof.
  assert (Hoptions : forall id options v,
             In v options -> NoDup options ->
             Layout.sound (Layout.Dropdown id options v))
    by (intros; now split).
  assert (Hslider : forall id lo hi step v marks,
             0 < step ->
             lo <= v <= hi -> (v - lo) mod step = 0 ->
             lo <= hi -> (hi - lo) mod step = 0 ->
             Forall (fun mark => lo <= fst mark <= hi
                                 /\ (fst mark - lo) mod step = 0) marks ->
             Layout.sound (Layout.Slider id lo hi step v marks)).
  { intros id lo hi step v marks Hstep Hv Hvgrid Hhi Hhigrid Hmarks.
    cbn. unfold Layout.on_grid. repeat split; try assumption; lia. }
  unfold Layout.components.
  repeat (apply Forall_cons; [| ]); try apply Forall_nil;
    try (cbn; split; [lia | lia || exact I]);
    try exact I;
    try (apply Hoptions;
         [ cbn; tauto
         | repeat (constructor; [cbn; intuition discriminate |]); constructor ]);
    try (apply Hslider; try lia; try reflexivity;
         repeat (apply Forall_cons; [cbn; split; [lia | reflexivity] |]);
         apply Forall_nil).
Qed.

(** X13.  A click on the untouched form, with a pipeline loaded, hands
    the model the initial values of the layout under the field names of
    the record: arrival time 5, distance 10, cost 300, temperature 30,
    humidity 50, precipitation 0, "Auto", "patient", "Gurgaon",
    "South Delhi", "No Prior Rating", hour 18, "Monday", month 6, day 15
    and "Clear". *)
Theorem untouched_form_record
    py_round float_str (pipe : estimator) n_clicks st t :
  truthy n_clicks = true ->
  map Some (State.values st) = Layout.initial_values ->
  snd (callback py_round float_str (Some pipe) n_clicks st t)
  = (t ++ [[ [ ("vehicle_arrival_time", VInt 5); ("distance", VInt 10);
               ("ride_cost", VInt 300); ("temperature", VInt 30);
               ("humidity", VInt 50); ("precipitation_mm", VInt 0);
               ("vehicle_type", VStr "Auto");
               ("customer_patience", VStr "patient");
               ("pickup_zone", VStr "Gurgaon");
               ("drop_zone", VStr "South Delhi");
               ("historical_customer_rating_binned", VStr "No Prior Rating");
               ("hour", VInt 18); ("day", VStr "Monday"); ("month", VInt 6);
               ("day_of_month", VInt 15);
               ("weather_condition", VStr "Clear") ] ]])%list.
Proof.
  intros Hclick Hinitial.
  rewrite (run_trace py_round float_str pipe n_clicks st t Hclick).
  destruct st. cbv in Hinitial.
  injection Hinitial as -> -> -> -> -> -> -> -> -> -> -> -> -> -> -> ->.
  reflexivity.
Qed.

(* ------------------------------------------------------------------ *)
(** ** The further properties at concrete inputs *)

Lemma display_is_one_of_four_on_fault :
  Outputs "Error" "text-danger" (Int 0) "danger"
          ("Prediction failed: " ++ exn_str ValueError_bad_record)
  = Outputs "Ready" "text-center text-muted" (Int 0) "info"
            "Click Predict to start"
  \/ (exists caption,
         Outputs "Error" "text-danger" (Int 0) "danger"
                 ("Prediction failed: " ++ exn_str ValueError_bad_record)
         = Outputs "Error" "text-danger" (Int 0) "danger" caption)
  \/ (exists x caption,
         Outputs "Error" "text-danger" (Int 0) "danger"
                 ("Prediction failed: " ++ exn_str ValueError_bad_record)
         = Outputs "Cancelled" "text-center text-danger font-weight-bold"
                   (Float x) "danger" caption)
  \/ (exists x caption,
         Outputs "Error" "text-danger" (Int 0) "danger"
                 ("Prediction failed: " ++ exn_str ValueError_bad_record)
         = Outputs "Not Cancelled" "text-center text-success font-weight-bold"
                   (Float x) "success" caption).
Proof.
  apply (display_is_one_of_four
           Builtins.float_round Builtins.float_repr
           (Some (failing_model ValueError_bad_record)) (Some 1)
           State.initial []).
  reflexivity.
Defined.

Lemma missing_model_caption_iff_no_pipeline :
  prob_text (Outputs "Error" "text-danger" (Int 0) "danger"
                     "Model file not found.")
  = "Model file not found."
  <-> truthy (Some 1) = true /\ @None estimator = None.
Proof.
  apply (missing_model_caption_iff
           Builtins.float_round Builtins.float_repr
           None (Some 1) State.initial []).
  reflexivity.
Defined.

(** A negative click count is a click. *)
Lemma ready_iff_no_click_negative :
  prediction_text (Outputs "Error" "text-danger" (Int 0) "danger"
                           "Model file not found.")
  = "Ready"
  <-> Some (-1) = @None Z \/ Some (-1) = Some 0.
Proof.
  apply (ready_iff_no_click
           Builtins.float_round Builtins.float_repr
           None (Some (-1)) State.initial []).
  reflexivity.
Defined.

Lemma not_cancelled_iff_below_half_04567 :
  exists out,
    fst (callback Builtins.float_round Builtins.float_repr
                  (Some (constant_model [0.5433; 0.4567]%float)) (Some 1)
                  State.initial []) = Ok out
    /\ (prediction_text out = "Not Cancelled" <-> (0.4567 <? 0.5)%float = true)
    /\ (prediction_text out = "Cancelled" <-> (0.5 <=? 0.4567)%float = true).
Proof.
  apply (not_cancelled_iff_below_half
           Builtins.float_round Builtins.float_repr
           (constant_model [0.5433; 0.4567]%float) (Some 1) State.initial []
           [[0.5433; 0.4567]%float] [0.5433; 0.4567]%float 0.4567%float);
    reflexivity.
Defined.

Lemma nan_probability_not_cancelled_both_nan :
  callback Builtins.float_round Builtins.float_repr
           (Some (constant_model [nan; nan])) (Some 1) State.initial []
  = (Ok (Outputs "Not Cancelled" "text-center text-success font-weight-bold"
                 (Float (Builtins.float_round (nan * 100)%float 2)) "success"
                 (Builtins.float_repr (Builtins.float_round (nan * 100)%float 2)
                    ++ "% Risk")),
     ([] ++ [submitted State.initial])%list).
Proof.
  apply (nan_probability_not_cancelled
           Builtins.float_round Builtins.float_repr
           (constant_model [nan; nan]) (Some 1) State.initial []
           [[nan; nan]] [nan; nan] nan);
    reflexivity.
Defined.

Lemma higher_probability_stays_cancelled_06_09 :
  exists out2,
    fst (callback Builtins.float_round Builtins.float_repr
                  (Some (constant_model [0.1; 0.9]%float)) (Some 1)
                  State.initial [submitted State.initial]) = Ok out2
    /\ prediction_text out2 = "Cancelled".
Proof.
  apply (higher_probability_stays_cancelled
           Builtins.float_round Builtins.float_repr
           (constant_model [0.4; 0.6]%float) (constant_model [0.1; 0.9]%float)
           (Some 1) State.initial [] [submitted State.initial]
           [[0.4; 0.6]%float] [[0.1; 0.9]%float]
           [0.4; 0.6]%float [0.1; 0.9]%float 0.6%float 0.9%float
           (Outputs "Cancelled" "text-center text-danger font-weight-bold"
                    (Float (Builtins.float_round (0.6 * 100)%float 2)) "danger"
                    (Builtins.float_repr (Builtins.float_round (0.6 * 100)%float 2)
                       ++ "% Risk")));
    reflexivity.
Defined.

Lemma short_answer_is_reported_one_class :
  callback Builtins.float_round Builtins.float_repr
           (Some (constant_model [1]%float)) (Some 1) State.initial []
  = (Ok (Outputs "Error" "text-danger" (Int 0) "danger"
                 ("Prediction failed: index 1 is out of bounds for axis 0 with size "
                    ++ nat_str (List.length [1%float]))),
     ([] ++ [submitted State.initial])%list).
Proof.
  apply (proj2 (short_answer_is_reported
                  Builtins.float_round Builtins.float_repr
                  (constant_model [1]%float) (Some 1) State.initial []
                  eq_refl)
           [1%float] []).
  - reflexivity.
  - cbn. lia.
Defined.

(** The file is there and holds a pickled [None]. *)
Lemma missing_caption_after_startup_pickled_None :
  load_pipeline true (Ok None) = Ok None
  /\ (forall n_clicks st t out,
        fst (callback Builtins.float_round Builtins.float_repr
                      None n_clicks st t) = Ok out ->
        prob_text out = "Model file not found."
        <-> truthy n_clicks = true
            /\ (true = false \/ Ok None = Ok (@None estimator)))
  /\ (true = true ->
      ["Model loaded from " ++ MODEL_FILE]
      = ["Model loaded from cancellation_model_pipeline.joblib"])
  /\ (true = false ->
      ["Model loaded from " ++ MODEL_FILE] =
        ["ERROR: cancellation_model_pipeline.joblib not found. Please ensure the model file is in the same directory."]).
Proof.
  apply (missing_caption_after_startup
           Builtins.float_round Builtins.float_repr
           true (Ok None) None ["Model loaded from " ++ MODEL_FILE]).
  reflexivity.
Defined.

Lemma untouched_form_record_initial :
  snd (callback Builtins.float_round Builtins.float_repr
                (Some (constant_model [0.27; 0.73]%float)) (Some 1)
                State.initial [])
  = ([] ++ [[ [ ("vehicle_arrival_time", VInt 5); ("distance", VInt 10);
                ("ride_cost", VInt 300); ("temperature", VInt 30);
                ("humidity", VInt 50); ("precipitation_mm", VInt 0);
                ("vehicle_type", VStr "Auto");
                ("customer_patience", VStr "patient");
                ("pickup_zone", VStr "Gurgaon");
                ("drop_zone", VStr "South Delhi");
                ("historical_customer_rating_binned", VStr "No Prior Rating");
                ("hour", VInt 18); ("day", VStr "Monday"); ("month", VInt 6);
                ("day_of_month", VInt 15);
                ("weather_condition", VStr "Clear") ] ]])%list.
Proof.
  apply (untouched_form_record
           Builtins.float_round Builtins.float_repr
           (constant_model [0.27; 0.73]%float) (Some 1) State.initial []);
    reflexivity.
Defined.

Lemma out_of_range_probability_displayed_above_one :
  callback Builtins.float_round Builtins.float_repr
           (Some (constant_model [-0.5; 1.5]%float)) (Some 1) State.initial []
  = (Ok (Outputs "Cancelled" "text-center text-danger font-weight-bold"
                 (Float (Builtins.float_round (1.5 * 100)%float 2)) "danger"
                 (Builtins.float_repr (Builtins.float_round (1.5 * 100)%float 2)
                    ++ "% Risk")),
     ([] ++ [submitted State.initial])%list).
Proof.
  apply (proj1 (out_of_range_probability_displayed
                  Builtins.float_round Builtins.float_repr
                  (constant_model [-0.5; 1.5]%float) (Some 1) State.initial []
                  [[-0.5; 1.5]%float] [-0.5; 1.5]%float 1.5%float
                  eq_refl eq_refl eq_refl eq_refl)).
  reflexivity.
Defined.
